(** * Research-paper screening workflow (src/app.js): a shallow embedding

    The six agents of [app.js] are embedded as computations of a small
    state-and-exception monad over the shared [WorkflowState] object and
    the log of calls made to the text-generation gateway.  The gateway
    ([model.invoke]) and [JSON.parse] are external: a computation is
    parameterised by what the gateway answers to each call and by whether
    that answer decodes.

    Scope of the model.
    - The six agent functions are embedded.  The graph library
      ([StateGraph], [compile], [invoke]) and the routes that go through
      it are outside the model: nothing here says what [createWorkflow]
      or a route computes.  Where a statement is about several agents, it
      calls them one after the other, each on the machine the previous
      one left.
    - A document is an object whose [title] and [abstract] are strings or
      absent.
    - A metadata answer that decodes is any JSON object, array, [null],
      number, string or boolean.  A criteria answer is an array of
      criterion objects of any length, or not an array; an evaluation
      answer is an object with any integer [paper_id], whose
      [evaluations], when present, is an array of any length of entries
      with any integer [criterion_id] and any string [response].
    - A string of the model is a sequence of 8-bit characters and stands
      for the JavaScript string with the same code units.
      [substring(0, 200)] counts UTF-16 code units, so what is stated
      about its result is stated for ASCII text, where characters, bytes
      and code units coincide.
    - JavaScript numbers that occur are integers and are kept as [Z].
    - [Array.prototype.sort] is stable (ECMAScript 2019). *)

From Stdlib Require Import DecimalString.
From stdpp Require Import gmap strings list fin_maps sorting.

Open Scope string_scope.
Open Scope Z_scope.
Open Scope list_scope.

(** ** JavaScript data *)

(** JSON values as [JSON.parse] produces them (numbers that occur here are
    integers: ids, years, counts). *)
#[local] Unset Elimination Schemes.
Inductive json : Type :=
| JNull
| JBool (b : bool)
| JNum (n : Z)
| JStr (s : string)
| JArr (xs : list json)
| JObj (fields : list (string * json)).
#[local] Set Elimination Schemes.

(** Template-literal rendering of a non-negative integer, [`${n}`]. *)
Definition show_nat (n : nat) : string := NilZero.string_of_uint (Nat.to_uint n).

(** [!v] for a property that is either absent ([undefined]) or a string:
    [undefined] and the empty string are falsy. *)
Definition falsy (v : option string) : bool :=
  match v with
  | None => true
  | Some s => bool_decide (s = "")
  end.

(** [arr[i]] for a numeric index: [undefined] outside [0 .. length-1]. *)
Definition array_get {A : Type} (arr : list A) (i : Z) : option A :=
  if bool_decide (0 ≤ i) then arr !! Z.to_nat i else None.

(** A submitted document, [{title, abstract}]; [None] is an absent field. *)
Module Paper.
Record t : Type := mk { title : option string; abstract : option string }.
End Paper.

(** The properties of a JSON object: a finite map from property names. *)
Abbreviation Metadata := (gmap string json).

(** A JSON number, string or boolean. *)
Inductive primitive : Type :=
| PBool (b : bool)
| PNum (n : Z)
| PStr (s : string).

(** What [JSON.parse] returns for a metadata answer. *)
Inductive MetadataJSON : Type :=
| MetadataObject (fields : Metadata)
| MetadataArray (items : list json)
| MetadataNull
| MetadataPrimitive (v : primitive).

(** An element of [state.extractedMetadata]: an object with its properties,
    an array with its items and the named properties set on it, or a
    primitive value. *)
Inductive MetadataRecord : Type :=
| ObjectRecord (fields : Metadata)
| ArrayRecord (items : list json) (fields : Metadata)
| PrimitiveRecord (v : primitive).

(** One generated screening criterion. *)
Module Criterion.
Record t : Type := mk {
  id : Z;
  criterion : string;
  description : string;
  evaluation_focus : string
}.
End Criterion.

(** One entry of a document's [evaluations] array. *)
Module Evaluation.
Record t : Type := mk {
  criterion_id : Z;
  response : string;
  reasoning : string
}.
End Evaluation.

(** A decoded evaluation answer of the gateway.  [title] and [evaluations]
    are [None] when the property is absent ([undefined]). *)
Module EvaluationJSON.
Record t : Type := mk {
  paper_id : Z;
  title : option string;
  evaluations : option (list Evaluation.t)
}.
End EvaluationJSON.

(** An element of [state.evaluationResults]. *)
Module PaperEval.
Record t : Type := mk {
  paper_id : Z;
  title : option string;
  evaluations : list Evaluation.t
}.
End PaperEval.

(** A decoded criteria answer: either an array of criteria or some other
    JSON value ([Array.isArray] is false). *)
Inductive CriteriaJSON : Type :=
| NotAnArray
| CriteriaArray (cs : list Criterion.t).

(** A back-reference stored in the per-criterion bucket lists. *)
Module PaperRef.
Record t : Type := mk { paper_id : Z; title : option string; reasoning : string }.
End PaperRef.

Module CriterionStat.
Record t : Type := mk {
  criterion : string;
  description : string;
  yes_count : Z;
  maybe_count : Z;
  no_count : Z;
  yes_papers : list PaperRef.t;
  maybe_papers : list PaperRef.t;
  no_papers : list PaperRef.t
}.
End CriterionStat.

(** An element of [scoredPapers]. *)
Module Scored.
Record t : Type := mk {
  paper_id : Z;
  title : option string;
  yes_count : Z;
  maybe_count : Z;
  no_count : Z;
  eligibility_score : Z;
  is_eligible : bool;
  evaluations : list Evaluation.t;
  original_index : Z
}.
End Scored.

(** An element of [state.finalSelectedPapers]: the scored record spread
    together with the joined document and metadata ([None] is
    [undefined]). *)
Module Selected.
Record t : Type := mk {
  scored : Scored.t;
  original_paper : option Paper.t;
  metadata : option MetadataRecord
}.
End Selected.

(** [class WorkflowState] *)
Record WorkflowState : Type := mkState {
  inputPapers : list Paper.t;
  extractedMetadata : list MetadataRecord;
  generatedCriteria : list Criterion.t;
  evaluationResults : list PaperEval.t;
  criteriaStats : gmap Z CriterionStat.t;
  finalSelectedPapers : list Selected.t;
  currentStep : string;
  errors : list string
}.

(** [new WorkflowState()] followed by [initialState.inputPapers = papers]. *)
Definition initialState (papers : list Paper.t) : WorkflowState :=
  mkState papers [] [] [] ∅ [] "" [].

Definition set_extractedMetadata (v : list MetadataRecord) (s : WorkflowState) :=
  mkState (inputPapers s) v (generatedCriteria s) (evaluationResults s)
          (criteriaStats s) (finalSelectedPapers s) (currentStep s) (errors s).
Definition set_generatedCriteria (v : list Criterion.t) (s : WorkflowState) :=
  mkState (inputPapers s) (extractedMetadata s) v (evaluationResults s)
          (criteriaStats s) (finalSelectedPapers s) (currentStep s) (errors s).
Definition set_evaluationResults (v : list PaperEval.t) (s : WorkflowState) :=
  mkState (inputPapers s) (extractedMetadata s) (generatedCriteria s) v
          (criteriaStats s) (finalSelectedPapers s) (currentStep s) (errors s).
Definition set_criteriaStats (v : gmap Z CriterionStat.t) (s : WorkflowState) :=
  mkState (inputPapers s) (extractedMetadata s) (generatedCriteria s)
          (evaluationResults s) v (finalSelectedPapers s) (currentStep s) (errors s).
Definition set_finalSelectedPapers (v : list Selected.t) (s : WorkflowState) :=
  mkState (inputPapers s) (extractedMetadata s) (generatedCriteria s)
          (evaluationResults s) (criteriaStats s) v (currentStep s) (errors s).
Definition set_currentStep (v : string) (s : WorkflowState) :=
  mkState (inputPapers s) (extractedMetadata s) (generatedCriteria s)
          (evaluationResults s) (criteriaStats s) (finalSelectedPapers s) v (errors s).
(** [state.errors.push(msg)] *)
Definition push_error (msg : string) (s : WorkflowState) :=
  mkState (inputPapers s) (extractedMetadata s) (generatedCriteria s)
          (evaluationResults s) (criteriaStats s) (finalSelectedPapers s)
          (currentStep s) (errors s ++ [msg]).

(** ** The gateway *)

(** The calls the agents make to [model.invoke], by task and document
    index. *)
Inductive Call : Type :=
| ExtractCall (i : nat)
| CriteriaCall
| EvaluateCall (i : nat).

(** [response.content]: a text that [JSON.parse] either rejects with a
    [SyntaxError] or decodes. *)
Inductive Content (A : Type) : Type :=
| Unparsable (message : string)
| Parses (v : A).
Arguments Unparsable {A} message.
Arguments Parses {A} v.

(** What [await model.invoke(...)] does: reject, or resolve to a response. *)
Inductive Reply (A : Type) : Type :=
| Rejected (message : string)
| Replied (content : Content A).
Arguments Rejected {A} message.
Arguments Replied {A} content.

(** One run's worth of gateway behaviour. *)
Record Gateway : Type := mkGateway {
  extract_reply : nat → Reply MetadataJSON;
  criteria_reply : Reply CriteriaJSON;
  evaluate_reply : nat → Reply EvaluationJSON.t
}.

(** ** The monad: shared state, call log, exceptions *)

Record Machine : Type := mkMachine {
  state : WorkflowState;
  calls : list Call
}.

Inductive Outcome (A : Type) : Type :=
| Returned (a : A) (m : Machine)
| Thrown (message : string) (m : Machine).
Arguments Returned {A} a m.
Arguments Thrown {A} message m.

Definition Js (A : Type) : Type := Machine → Outcome A.

Definition ret {A} (a : A) : Js A := λ m, Returned a m.
Definition bind {A B} (c : Js A) (k : A → Js B) : Js B :=
  λ m, match c m with
       | Returned a m' => k a m'
       | Thrown e m' => Thrown e m'
       end.
Definition throw {A} (message : string) : Js A := λ m, Thrown message m.
(** [try { body } catch (e) { handler e }]: effects of [body] up to the
    throw are kept. *)
Definition try_catch {A} (body : Js A) (handler : string → Js A) : Js A :=
  λ m, match body m with
       | Returned a m' => Returned a m'
       | Thrown e m' => handler e m'
       end.
Definition get_state : Js WorkflowState := λ m, Returned (state m) m.
Definition modify_state (f : WorkflowState → WorkflowState) : Js unit :=
  λ m, Returned tt (mkMachine (f (state m)) (calls m)).

#[global] Instance Js_ret : MRet Js := @ret.
#[global] Instance Js_bind : MBind Js := λ A B k c, bind c k.

(** [await model.invoke(...)]: the call is logged, then rejects or
    resolves. *)
Definition model_invoke {A} (c : Call) (r : Reply A) : Js (Content A) :=
  λ m, let m' := mkMachine (state m) (calls m ++ [c]) in
       match r with
       | Rejected e => Thrown e m'
       | Replied content => Returned content m'
       end.

(** [JSON.parse(response.content)] *)
Definition JSON_parse {A} (content : Content A) : Js A :=
  match content with
  | Unparsable e => throw e
  | Parses v => mret v
  end.

(** The shape shared by all agents:
    [try { ... return state } catch (error) {
       state.errors.push(`Agent n Error: ${error.message}`); throw error }]. *)
Definition agent_body (n : nat) (body : Js unit) : Js unit :=
  try_catch body
    (λ error, modify_state (push_error ("Agent " +:+ show_nat n +:+ " Error: " +:+ error));;
              throw error).

(** The per-document loops of agents 2 and 4,
    [for (let i = 0; i < papers.length; i++) { ...; results.push(...) }],
    from index [i] on; [results] is the local array being filled. *)
Fixpoint for_each_paper {B} (body : nat → Paper.t → Js B) (i : nat)
    (papers : list Paper.t) (results : list B) : Js (list B) :=
  match papers with
  | [] => mret results
  | paper :: rest =>
      result ← body i paper;
      for_each_paper body (S i) rest (results ++ [result])
  end.

(** ** Agent 1: input processing *)

Definition missing_fields_message (i : nat) : string :=
  "Paper " +:+ show_nat (i + 1) +:+ " missing required fields: title, or abstract".

(** The validation loop, from index [i] on. *)
Fixpoint validate_from (i : nat) (papers : list Paper.t) : Js unit :=
  match papers with
  | [] => mret tt
  | paper :: rest =>
      if falsy (Paper.title paper) || falsy (Paper.abstract paper)
      then throw (missing_fields_message i)
      else validate_from (S i) rest
  end.

Definition agent1_processInput : Js unit :=
  agent_body 1
    (st ← get_state;
     (if bool_decide (length (inputPapers st) ≠ 50%nat)
      then throw "Expected exactly 50 research papers"
      else mret tt);;
     validate_from 0 (inputPapers st);;
     modify_state (set_currentStep "Input Processed")).

(** ** Agent 2: metadata extraction *)

Definition not_specified : json := JStr "Not specified".

(** The object literal of the [catch] branch.  A property whose value is
    [undefined] is the same as an absent one; [paper.abstract.substring]
    throws a [TypeError] when [abstract] is [undefined]. *)
Definition fallback_record (i : nat) (title : option string)
    (abstract_summary : string) : Metadata :=
  let title_property : Metadata :=
    match title with
    | Some title => {[ "title" := JStr title ]}
    | None => ∅
    end in
  <["year" := not_specified]>
  (<["journal" := not_specified]>
  (<["authors" := JArr []]>
  (<["keywords" := JArr []]>
  (<["main_findings" := not_specified]>
  (<["study_type" := not_specified]>
  (<["methodology" := not_specified]>
  (<["research_domain" := not_specified]>
  (<["abstract_summary" := JStr abstract_summary]>
  (<["original_index" := JNum (Z.of_nat i)]>
  (<["paper_id" := JNum (Z.of_nat i + 1)]> title_property)))))))))).

Definition fallback_metadata (i : nat) (paper : Paper.t) : Js MetadataRecord :=
  match Paper.abstract paper with
  | None => throw "Cannot read properties of undefined (reading 'substring')"
  | Some abstract =>
      mret (ObjectRecord
              (fallback_record i (Paper.title paper)
                 (String.substring 0 200 abstract)))
  end.

(** [metadata.paper_id = i + 1; metadata.original_index = i;] in a script
    that is not in strict mode: the two properties are set on an object or
    an array, the first assignment throws a [TypeError] on [null], and both
    assignments do nothing on a number, a string or a boolean. *)
Definition stamp (i : nat) (metadata : MetadataJSON) : Js MetadataRecord :=
  match metadata with
  | MetadataObject fields =>
      mret (ObjectRecord
              (<["original_index" := JNum (Z.of_nat i)]>
                 (<["paper_id" := JNum (Z.of_nat i + 1)]> fields)))
  | MetadataArray items =>
      mret (ArrayRecord items
              (<["original_index" := JNum (Z.of_nat i)]>
                 (<["paper_id" := JNum (Z.of_nat i + 1)]> ∅)))
  | MetadataNull => throw "Cannot set properties of null (setting 'paper_id')"
  | MetadataPrimitive v => mret (PrimitiveRecord v)
  end.

(** The body of the [for] loop for document [i]. *)
Definition extract_one (gw : Gateway) (i : nat) (paper : Paper.t)
    : Js MetadataRecord :=
  response ← model_invoke (ExtractCall i) (extract_reply gw i);
  try_catch
    (metadata ← JSON_parse response;
     stamp i metadata)
    (λ parseError, fallback_metadata i paper).

Definition agent2_extractMetadata (gw : Gateway) : Js unit :=
  agent_body 2
    (st ← get_state;
     extractedMetadata ← for_each_paper (extract_one gw) 0 (inputPapers st) [];
     modify_state (set_extractedMetadata extractedMetadata);;
     modify_state (set_currentStep "Metadata Extracted")).

(** ** Agent 3: criteria generation *)

Definition agent3_generateCriteria (gw : Gateway) : Js unit :=
  agent_body 3
    (response ← model_invoke CriteriaCall (criteria_reply gw);
     criteria ← JSON_parse response;
     match criteria with
     | CriteriaArray cs =>
         if bool_decide (length cs ≠ 6%nat)
         then throw "Failed to generate exactly 6 criteria"
         else modify_state (set_generatedCriteria cs);;
              modify_state (set_currentStep "Criteria Generated")
     | NotAnArray => throw "Failed to generate exactly 6 criteria"
     end).

(** ** Agent 4: evaluation *)

Definition valid_responses : list string := ["Yes"; "Maybe"; "No"].

(** [{...eval, response: ['Yes','Maybe','No'].includes(eval.response)
                          ? eval.response : 'No'}] *)
Definition sanitize (eval : Evaluation.t) : Evaluation.t :=
  Evaluation.mk (Evaluation.criterion_id eval)
    (if bool_decide (Evaluation.response eval ∈ valid_responses)
     then Evaluation.response eval else "No")
    (Evaluation.reasoning eval).

(** The object literal of the [catch] branch. *)
Definition fallback_evaluation (criteria : list Criterion.t) (i : nat)
    (paper : Paper.t) : PaperEval.t :=
  PaperEval.mk (Z.of_nat i + 1) (Paper.title paper)
    (map (λ c, Evaluation.mk (Criterion.id c) "Maybe"
                 "Evaluation failed, marked as Maybe") criteria).

(** The [try] branch: decode, check the structure, sanitize. *)
Definition parse_evaluation (response : Content EvaluationJSON.t) : Js PaperEval.t :=
  evaluation ← JSON_parse response;
  match EvaluationJSON.evaluations evaluation with
  | None => throw "Invalid evaluation structure"
  | Some evaluations =>
      if bool_decide (length evaluations ≠ 6%nat)
      then throw "Invalid evaluation structure"
      else mret (PaperEval.mk (EvaluationJSON.paper_id evaluation)
                   (EvaluationJSON.title evaluation)
                   (map sanitize evaluations))
  end.

Definition evaluate_one (gw : Gateway) (criteria : list Criterion.t) (i : nat)
    (paper : Paper.t) : Js PaperEval.t :=
  response ← model_invoke (EvaluateCall i) (evaluate_reply gw i);
  try_catch (parse_evaluation response)
    (λ parseError, mret (fallback_evaluation criteria i paper)).

Definition agent4_evaluatePapers (gw : Gateway) : Js unit :=
  agent_body 4
    (st ← get_state;
     evaluationResults ←
       for_each_paper (evaluate_one gw (generatedCriteria st)) 0 (inputPapers st) [];
     modify_state (set_evaluationResults evaluationResults);;
     modify_state (set_currentStep "Papers Evaluated")).

(** ** Agent 5: statistics *)

(** [stats[criterion.id] = { criterion, description, 0, 0, 0, [], [], [] }] *)
Definition init_stat (stats : gmap Z CriterionStat.t) (criterion : Criterion.t)
    : gmap Z CriterionStat.t :=
  <[Criterion.id criterion :=
      CriterionStat.mk (Criterion.criterion criterion)
        (Criterion.description criterion) 0 0 0 [] [] []]> stats.

(** The body of the inner [forEach]: look the criterion up, and when it is
    there bump the counter and bucket selected by the [switch]. *)
Definition count_evaluation (paperEval : PaperEval.t)
    (stats : gmap Z CriterionStat.t) (eval : Evaluation.t)
    : gmap Z CriterionStat.t :=
  match stats !! Evaluation.criterion_id eval with
  | Some criterionStat =>
      let ref := PaperRef.mk (PaperEval.paper_id paperEval)
                   (PaperEval.title paperEval) (Evaluation.reasoning eval) in
      let '(CriterionStat.mk c d yes maybe no yes_papers maybe_papers no_papers) :=
        criterionStat in
      if bool_decide (Evaluation.response eval = "Yes") then
        <[Evaluation.criterion_id eval :=
            CriterionStat.mk c d (yes + 1) maybe no
              (yes_papers ++ [ref]) maybe_papers no_papers]> stats
      else if bool_decide (Evaluation.response eval = "Maybe") then
        <[Evaluation.criterion_id eval :=
            CriterionStat.mk c d yes (maybe + 1) no
              yes_papers (maybe_papers ++ [ref]) no_papers]> stats
      else if bool_decide (Evaluation.response eval = "No") then
        <[Evaluation.criterion_id eval :=
            CriterionStat.mk c d yes maybe (no + 1)
              yes_papers maybe_papers (no_papers ++ [ref])]> stats
      else stats
  | None => stats
  end.

Definition count_paper (stats : gmap Z CriterionStat.t) (paperEval : PaperEval.t)
    : gmap Z CriterionStat.t :=
  foldl (count_evaluation paperEval) stats (PaperEval.evaluations paperEval).

Definition generateStats (criteria : list Criterion.t)
    (evaluationResults : list PaperEval.t) : gmap Z CriterionStat.t :=
  foldl count_paper (foldl init_stat ∅ criteria) evaluationResults.

Definition agent5_generateStats : Js unit :=
  agent_body 5
    (st ← get_state;
     modify_state (set_criteriaStats
                     (generateStats (generatedCriteria st) (evaluationResults st)));;
     modify_state (set_currentStep "Statistics Generated")).

(** ** Agent 6: scoring and selection *)

(** The tallying [forEach] with its [switch]. *)
Definition tally (evaluations : list Evaluation.t) : Z * Z * Z :=
  foldl (λ '(yesCount, maybeCount, noCount) eval,
           if bool_decide (Evaluation.response eval = "Yes")
           then (yesCount + 1, maybeCount, noCount)
           else if bool_decide (Evaluation.response eval = "Maybe")
           then (yesCount, maybeCount + 1, noCount)
           else if bool_decide (Evaluation.response eval = "No")
           then (yesCount, maybeCount, noCount + 1)
           else (yesCount, maybeCount, noCount))
        (0, 0, 0) evaluations.

(** The [if]/[else if] chain followed by the bonus:
    [(eligibilityScore, isEligible)]. *)
Definition eligibility (yesCount maybeCount : Z) : Z * bool :=
  let '(eligibilityScore, isEligible) :=
    if bool_decide (yesCount = 6) then (1000, true)
    else if bool_decide (yesCount = 5) && bool_decide (maybeCount = 1)
    then (900, true)
    else if bool_decide (yesCount = 4) && bool_decide (maybeCount = 2)
    then (800, true)
    else if bool_decide (3 ≤ yesCount) && bool_decide (5 ≤ yesCount + maybeCount)
    then (700, true)
    else (0, false) in
  (eligibilityScore + (yesCount * 10 + maybeCount * 5), isEligible).

Definition scorePaper (paperEval : PaperEval.t) : Scored.t :=
  let '(yesCount, maybeCount, noCount) := tally (PaperEval.evaluations paperEval) in
  let '(eligibilityScore, isEligible) := eligibility yesCount maybeCount in
  Scored.mk (PaperEval.paper_id paperEval) (PaperEval.title paperEval)
    yesCount maybeCount noCount eligibilityScore isEligible
    (PaperEval.evaluations paperEval) (PaperEval.paper_id paperEval - 1).

(** [Array.prototype.sort(compare)] is a stable sort (ECMAScript 2019):
    modelled by stable insertion.  [x] goes in front of the first element
    it does not compare greater than. *)
Section Array_sort.
Context {A : Type} (compare : A → A → Z).

Fixpoint sort_insert (x : A) (l : list A) : list A :=
  match l with
  | [] => [x]
  | y :: l' =>
      if bool_decide (compare x y ≤ 0) then x :: y :: l'
      else y :: sort_insert x l'
  end.

Definition Array_sort (l : list A) : list A := foldr sort_insert [] l.
End Array_sort.

(** [(a, b) => b.eligibility_score - a.eligibility_score] *)
Definition by_score_desc (a b : Scored.t) : Z :=
  Scored.eligibility_score b - Scored.eligibility_score a.

(** Filtering, and the choice between the two branches. *)
Definition selectPapers (scoredPapers : list Scored.t) : list Scored.t :=
  let eligiblePapers := filter (λ p, Scored.is_eligible p) scoredPapers in
  if bool_decide (10 ≤ length eligiblePapers)%nat
  then take 10 eligiblePapers
  else
    let nonEligible := filter (λ p, ¬ Scored.is_eligible p) scoredPapers in
    let needed := (10 - length eligiblePapers)%nat in
    eligiblePapers ++ take needed nonEligible.

(** [{...paper, original_paper: inputPapers[i], metadata: extractedMetadata[i]}] *)
Definition attach (st : WorkflowState) (paper : Scored.t) : Selected.t :=
  Selected.mk paper
    (array_get (inputPapers st) (Scored.original_index paper))
    (array_get (extractedMetadata st) (Scored.original_index paper)).

Definition selectTopPapers (st : WorkflowState) : list Selected.t :=
  let scoredPapers := map scorePaper (evaluationResults st) in
  let scoredPapers := Array_sort by_score_desc scoredPapers in
  map (attach st) (selectPapers scoredPapers).

Definition agent6_selectTopPapers : Js unit :=
  agent_body 6
    (st ← get_state;
     modify_state (set_finalSelectedPapers (selectTopPapers st));;
     modify_state (set_currentStep "Top 10 Selected")).

(** ** The initial state *)

(** A machine that holds the initial state built for [papers] and on which
    no call has been made. *)
Definition start (papers : list Paper.t) : Machine :=
  mkMachine (initialState papers) [].

(** ** The batch built by the [/test-dummy] route *)

(** The element [Array.from] builds for index [i]; [facilities] and [years]
    are the values of [Math.floor(Math.random() * 1000) + 100] and
    [Math.floor(Math.random() * 3) + 1] drawn for it. *)
Definition dummyPaper (facilities years : nat) (i : nat) : Paper.t :=
  Paper.mk
    (Some ("Research Paper " +:+ show_nat (i + 1)
           +:+ ": Impact of AI on Healthcare Systems"))
    (Some ("This study examines the implementation of artificial intelligence "
           +:+ "in healthcare systems. The research focuses on efficiency "
           +:+ "improvements, cost reduction, and patient outcome enhancement. "
           +:+ "We conducted a comprehensive analysis of " +:+ show_nat facilities
           +:+ " healthcare facilities over a " +:+ show_nat years
           +:+ "-year period.")).

(** [Array.from({ length: 50 }, (_, i) => ...)]; [draws i] are the two
    random numbers drawn for element [i]. *)
Definition dummyPapers (draws : nat → nat * nat) : list Paper.t :=
  map (λ i, dummyPaper (draws i).1 (draws i).2 i) (seq 0 50).

(** * Specification-side notions *)

(** ** Input validation *)

(** What the validation loop rejects: a falsy [title] or [abstract]. *)
Definition lacks_required (paper : Paper.t) : bool :=
  falsy (Paper.title paper) || falsy (Paper.abstract paper).

(** A document from which a required field is absent. *)
Definition missing_field (paper : Paper.t) : Prop :=
  Paper.title paper = None ∨ Paper.abstract paper = None.

(** Input that passes agent 1. *)
Definition valid_input (papers : list Paper.t) : Prop :=
  length papers = 50%nat ∧ Forall (λ paper, lacks_required paper = false) papers.

(** The document has an [abstract] property. *)
Definition has_abstract (paper : Paper.t) : Prop := is_Some (Paper.abstract paper).

(** Text made of ASCII characters only: its characters, its bytes and its
    UTF-16 code units are the same sequence. *)
Definition ascii_text (s : string) : Prop :=
  Forall (λ c, (Ascii.nat_of_ascii c < 128)%nat) (String.list_ascii_of_string s).

(** ** The gateway as seen by one run *)

(** The machine after one more logged call. *)
Definition log_call (c : Call) (m : Machine) : Machine :=
  mkMachine (state m) (calls m ++ [c]).

(** The entry an agent pushes on [state.errors]. *)
Definition agent_error (n : nat) (error : string) : string :=
  "Agent " +:+ show_nat n +:+ " Error: " +:+ error.

(** The message a call is rejected with, if it is. *)
Definition rejection {A} (r : Reply A) : option string :=
  match r with
  | Rejected e => Some e
  | Replied _ => None
  end.

(** Every per-document call for the first [n] documents is answered. *)
Definition all_answered (gw : Gateway) (n : nat) : Prop :=
  ∀ i, (i < n)%nat →
    rejection (extract_reply gw i) = None ∧ rejection (evaluate_reply gw i) = None.

(** The criteria answer decodes to an array of exactly six criteria. *)
Definition six_criteria (gw : Gateway) (cs : list Criterion.t) : Prop :=
  criteria_reply gw = Replied (Parses (CriteriaArray cs)) ∧ length cs = 6%nat.

(** An evaluation answer that the structural check of agent 4 refuses. *)
Definition malformed_evaluation (c : Content EvaluationJSON.t) : Prop :=
  match c with
  | Unparsable _ => True
  | Parses evaluation =>
      match EvaluationJSON.evaluations evaluation with
      | None => True
      | Some evaluations => length evaluations ≠ 6%nat
      end
  end.

(** ** What the loop bodies compute when the call is answered *)

(** A metadata answer for which agent 2 falls back: one that does not
    decode, or that decodes to [null]. *)
Definition undecodable (c : Content MetadataJSON) : Prop :=
  match c with
  | Unparsable _ | Parses MetadataNull => True
  | Parses _ => False
  end.

Definition extracted (gw : Gateway) (i : nat) (paper : Paper.t) : MetadataRecord :=
  match extract_reply gw i with
  | Replied (Parses (MetadataObject fields)) =>
      ObjectRecord
        (<["original_index" := JNum (Z.of_nat i)]>
           (<["paper_id" := JNum (Z.of_nat i + 1)]> fields))
  | Replied (Parses (MetadataArray items)) =>
      ArrayRecord items
        (<["original_index" := JNum (Z.of_nat i)]>
           (<["paper_id" := JNum (Z.of_nat i + 1)]> ∅))
  | Replied (Parses (MetadataPrimitive v)) => PrimitiveRecord v
  | _ => ObjectRecord
           (fallback_record i (Paper.title paper)
              (String.substring 0 200 (default "" (Paper.abstract paper))))
  end.

Definition evaluated (gw : Gateway) (criteria : list Criterion.t) (i : nat)
    (paper : Paper.t) : PaperEval.t :=
  match evaluate_reply gw i with
  | Replied (Parses evaluation) =>
      match EvaluationJSON.evaluations evaluation with
      | Some evaluations =>
          if bool_decide (length evaluations ≠ 6%nat)
          then fallback_evaluation criteria i paper
          else PaperEval.mk (EvaluationJSON.paper_id evaluation)
                 (EvaluationJSON.title evaluation) (map sanitize evaluations)
      | None => fallback_evaluation criteria i paper
      end
  | _ => fallback_evaluation criteria i paper
  end.

(** The machine in which agents 1, 2 and 3, called one after the other on
    the initial state of [papers], leave it when each of them returns. *)
Definition after_criteria (gw : Gateway) (papers : list Paper.t)
    (criteria : list Criterion.t) : Machine :=
  mkMachine
    (mkState papers (imap (extracted gw) papers) criteria [] ∅ []
       "Criteria Generated" [])
    (map ExtractCall (seq 0 (length papers)) ++ [CriteriaCall]).

(** The state in which the six agents, called one after the other on the
    initial state of [papers], leave it when each of them returns. *)
Definition final_state (gw : Gateway) (papers : list Paper.t)
    (criteria : list Criterion.t) : WorkflowState :=
  let metadata := imap (extracted gw) papers in
  let evaluations := imap (evaluated gw criteria) papers in
  let st := mkState papers metadata criteria evaluations
              (generateStats criteria evaluations) [] "Statistics Generated" [] in
  set_currentStep "Top 10 Selected" (set_finalSelectedPapers (selectTopPapers st) st).

(** The calls the six agents make then, in order. *)
Definition all_calls (n : nat) : list Call :=
  map ExtractCall (seq 0 n) ++ [CriteriaCall] ++ map EvaluateCall (seq 0 n).

(** ** Ranking *)

Abbreviation score := Scored.eligibility_score.

(** Descending by final score. *)
Definition descending (l : list Scored.t) : Prop :=
  StronglySorted (λ a b, score b ≤ score a) l.

(** [sorted] is [input] sorted descending by final score, with documents of
    equal score kept in their input order. *)
Definition stable_descending_sort (input sorted : list Scored.t) : Prop :=
  sorted ≡ₚ input
  ∧ descending sorted
  ∧ ∀ k, filter (λ p, score p = k) sorted = filter (λ p, score p = k) input.

(** The selection rule in the specification's words: the first 10 eligible
    documents of the sorted list when there are at least 10; otherwise all
    eligible ones followed by the ineligible ones, in sorted order, until 10
    are selected. *)
Definition reference_selection (sorted : list Scored.t) : list Scored.t :=
  let eligible := filter (λ p, Scored.is_eligible p = true) sorted in
  let ineligible := filter (λ p, Scored.is_eligible p = false) sorted in
  if decide (10 ≤ length eligible)%nat
  then take 10 eligible
  else eligible ++ take (10 - length eligible) ineligible.

(** All six entries of a document are rated [Yes]. *)
Definition all_yes (paperEval : PaperEval.t) : Prop :=
  length (PaperEval.evaluations paperEval) = 6%nat
  ∧ Forall (λ eval, Evaluation.response eval = "Yes") (PaperEval.evaluations paperEval).

(** ** Tallies *)

(** The number of entries with a given response. *)
Definition count_response (r : string) (evaluations : list Evaluation.t) : Z :=
  Z.of_nat (length (filter (λ eval, Evaluation.response eval = r) evaluations)).

Definition bonus (yes maybe : Z) : Z := 10 * yes + 5 * maybe.

(** The Yes, Maybe and No counts of the document sum to 6. *)
Definition six_responses (paperEval : PaperEval.t) : Prop :=
  count_response "Yes" (PaperEval.evaluations paperEval)
  + count_response "Maybe" (PaperEval.evaluations paperEval)
  + count_response "No" (PaperEval.evaluations paperEval) = 6.

(** ** Statistics *)

Definition stat_total (stat : CriterionStat.t) : Z :=
  CriterionStat.yes_count stat + CriterionStat.maybe_count stat
  + CriterionStat.no_count stat.

(** Every response of the document is one of Yes, Maybe, No. *)
Definition responses_valid (paperEval : PaperEval.t) : Prop :=
  Forall (λ eval, Evaluation.response eval ∈ valid_responses)
    (PaperEval.evaluations paperEval).

(** The document has exactly one entry for criterion [k]. *)
Definition covers_once (k : Z) (paperEval : PaperEval.t) : Prop :=
  length (filter (λ eval, Evaluation.criterion_id eval = k)
            (PaperEval.evaluations paperEval)) = 1%nat.

(** [1] when the entry is counted for criterion [k], else [0]. *)
Definition hit (k : Z) (eval : Evaluation.t) : Z :=
  if bool_decide (Evaluation.criterion_id eval = k
                  ∧ Evaluation.response eval ∈ valid_responses)
  then 1 else 0.

Definition hits (k : Z) (evaluations : list Evaluation.t) : Z :=
  foldr (λ eval n, hit k eval + n) 0 evaluations.

(** ** Sample inputs *)

(** The batch of the [/test-dummy] route, with its random numbers fixed. *)
Definition sample_paper (i : nat) : Paper.t :=
  Paper.mk
    (Some ("Research Paper " +:+ show_nat (i + 1)
           +:+ ": Impact of AI on Healthcare Systems"))
    (Some ("This study examines the implementation of artificial intelligence "
           +:+ "in healthcare systems. The research focuses on efficiency "
           +:+ "improvements, cost reduction, and patient outcome enhancement. "
           +:+ "We conducted a comprehensive analysis of 100 healthcare "
           +:+ "facilities over a 1-year period.")).

Definition sample_papers : list Paper.t := map sample_paper (seq 0 50).

Definition sample_metadata (i : nat) : Metadata :=
  {[ "title" := JStr ("Research Paper " +:+ show_nat (i + 1));
     "year" := JNum 2024;
     "paper_id" := JNum 0 ]}.

Definition sample_criteria : list Criterion.t :=
  map (λ k, Criterion.mk (Z.of_nat k) ("Criterion " +:+ show_nat k)
              "Does the paper meet it?" "quality")
      (seq 1 6).

(** Entries for criteria 1, 2, ... with the given responses. *)
Definition rate (responses : list string) : list Evaluation.t :=
  imap (λ j r, Evaluation.mk (Z.of_nat j + 1) r
                 ("criterion " +:+ show_nat (j + 1))) responses.

Definition answer (i : nat) (responses : list string) : Reply EvaluationJSON.t :=
  Replied (Parses (EvaluationJSON.mk (Z.of_nat i + 1)
                     (Paper.title (sample_paper i)) (Some (rate responses)))).

(** A gateway that answers every call as asked; every document is rated
    Yes throughout. *)
Definition reliable_gateway : Gateway :=
  mkGateway (λ i, Replied (Parses (MetadataObject (sample_metadata i))))
    (Replied (Parses (CriteriaArray sample_criteria)))
    (λ i, answer i ["Yes"; "Yes"; "Yes"; "Yes"; "Yes"; "Yes"]).

(** As [reliable_gateway], but the answers about the first document do not
    decode and the evaluation of the second has five entries. *)
Definition garbled_gateway : Gateway :=
  mkGateway
    (λ i, match i with
          | O => Replied (Unparsable "Unexpected token S in JSON at position 0")
          | _ => extract_reply reliable_gateway i
          end)
    (criteria_reply reliable_gateway)
    (λ i, match i with
          | O => Replied (Unparsable "Unexpected token S in JSON at position 0")
          | 1%nat => answer i ["Yes"; "Yes"; "Yes"; "Yes"; "Yes"]
          | _ => evaluate_reply reliable_gateway i
          end).

(** As [reliable_gateway], but the extraction call for the fourth document
    is rejected. *)
Definition unreachable_extraction : Gateway :=
  mkGateway
    (λ i, if bool_decide (i = 3%nat) then Rejected "fetch failed"
          else extract_reply reliable_gateway i)
    (criteria_reply reliable_gateway)
    (evaluate_reply reliable_gateway).

(** As [reliable_gateway], but the evaluation call for the fourth document
    is rejected. *)
Definition unreachable_evaluation : Gateway :=
  mkGateway (extract_reply reliable_gateway) (criteria_reply reliable_gateway)
    (λ i, if bool_decide (i = 3%nat) then Rejected "fetch failed"
          else evaluate_reply reliable_gateway i).

(** The first document is rated Yes throughout and every other document
    Maybe throughout, but the evaluation answered for the first document
    carries [paper_id] 2. *)
Definition mislabelling_gateway : Gateway :=
  mkGateway (extract_reply reliable_gateway) (criteria_reply reliable_gateway)
    (λ i, match i with
          | O => Replied (Parses (EvaluationJSON.mk 2 (Paper.title (sample_paper 0))
                   (Some (rate ["Yes"; "Yes"; "Yes"; "Yes"; "Yes"; "Yes"]))))
          | _ => answer i ["Maybe"; "Maybe"; "Maybe"; "Maybe"; "Maybe"; "Maybe"]
          end).

(** As [reliable_gateway], but every entry of every evaluation names
    criterion 1. *)
Definition single_criterion_gateway : Gateway :=
  mkGateway (extract_reply reliable_gateway) (criteria_reply reliable_gateway)
    (λ i, Replied (Parses (EvaluationJSON.mk (Z.of_nat i + 1)
            (Paper.title (sample_paper i))
            (Some (map (λ r, Evaluation.mk 1 r "criterion 1")
                     ["Yes"; "Maybe"; "No"; "Yes"; "Maybe"; "No"]))))).

(** As [reliable_gateway], but the metadata answers about the first three
    documents decode to the number 42, to [null] and to an empty array. *)
Definition terse_gateway : Gateway :=
  mkGateway
    (λ i, match i with
          | 0%nat => Replied (Parses (MetadataPrimitive (PNum 42)))
          | 1%nat => Replied (Parses MetadataNull)
          | 2%nat => Replied (Parses (MetadataArray []))
          | _ => extract_reply reliable_gateway i
          end)
    (criteria_reply reliable_gateway)
    (evaluate_reply reliable_gateway).

(** As [reliable_gateway], but only five criteria are generated. *)
Definition five_criteria_gateway : Gateway :=
  mkGateway (extract_reply reliable_gateway)
    (Replied (Parses (CriteriaArray (take 5 sample_criteria))))
    (evaluate_reply reliable_gateway).

(** As [reliable_gateway], but the responses are not all well-formed. *)
Definition sloppy_gateway : Gateway :=
  mkGateway (extract_reply reliable_gateway) (criteria_reply reliable_gateway)
    (λ i, answer i ["Yes"; "yes"; "Maybe"; "N/A"; "No"; ""]).

(** Documents with given responses, for the scoring examples. *)
Definition rated (responses : list string) : PaperEval.t :=
  PaperEval.mk 1 (Some "A paper") (rate responses).

(** The sample batch with the abstract of the fourth document absent. *)
Definition incomplete_papers : list Paper.t :=
  <[3%nat := Paper.mk (Some "Research Paper 4: Untitled draft") None]> sample_papers.

(** The state the six agents leave with [reliable_gateway] on the sample
    batch. *)
Definition reliable_final_state : WorkflowState :=
  final_state reliable_gateway sample_papers sample_criteria.

(** ** Further notions *)

(** Every extraction call for the first [n] documents is answered. *)
Definition extraction_answered (gw : Gateway) (n : nat) : Prop :=
  ∀ i, (i < n)%nat → rejection (extract_reply gw i) = None.

(** Every evaluation call for the first [n] documents is answered. *)
Definition evaluation_answered (gw : Gateway) (n : nat) : Prop :=
  ∀ i, (i < n)%nat → rejection (evaluate_reply gw i) = None.

(** The tier base of a pair of counts: the score without its bonus. *)
Definition tier_base (yes maybe : Z) : Z :=
  (eligibility yes maybe).1 - bonus yes maybe.

Abbreviation eligible p := (Scored.is_eligible p = true).
Abbreviation ineligible p := (Scored.is_eligible p = false).

(** The back-references that the entries [evaluations] of a document
    contribute to the bucket of response [r] of criterion [k], in order. *)
Definition entry_refs (k : Z) (r : string) (paperEval : PaperEval.t)
    (evaluations : list Evaluation.t) : list PaperRef.t :=
  map (λ eval, PaperRef.mk (PaperEval.paper_id paperEval)
                 (PaperEval.title paperEval) (Evaluation.reasoning eval))
      (filter (λ eval, Evaluation.criterion_id eval = k
                       ∧ Evaluation.response eval = r) evaluations).

(** The same over all documents, in document order. *)
Definition bucket (k : Z) (r : string) (evaluationResults : list PaperEval.t)
    : list PaperRef.t :=
  concat (map (λ paperEval, entry_refs k r paperEval (PaperEval.evaluations paperEval))
            evaluationResults).

(** [stat'] is [stat] with the three lists appended to its buckets and
    their lengths added to its counters. *)
Definition extended_by (yes maybe no : list PaperRef.t)
    (stat stat' : CriterionStat.t) : Prop :=
  CriterionStat.criterion stat' = CriterionStat.criterion stat
  ∧ CriterionStat.description stat' = CriterionStat.description stat
  ∧ CriterionStat.yes_papers stat' = CriterionStat.yes_papers stat ++ yes
  ∧ CriterionStat.maybe_papers stat' = CriterionStat.maybe_papers stat ++ maybe
  ∧ CriterionStat.no_papers stat' = CriterionStat.no_papers stat ++ no
  ∧ CriterionStat.yes_count stat'
    = CriterionStat.yes_count stat + Z.of_nat (length yes)
  ∧ CriterionStat.maybe_count stat'
    = CriterionStat.maybe_count stat + Z.of_nat (length maybe)
  ∧ CriterionStat.no_count stat'
    = CriterionStat.no_count stat + Z.of_nat (length no).

(** A freshly initialised entry for one of the criteria with id [k]. *)
Definition zeroed_for (criteria : list Criterion.t) (k : Z)
    (stat : CriterionStat.t) : Prop :=
  ∃ c, c ∈ criteria ∧ Criterion.id c = k
       ∧ stat = CriterionStat.mk (Criterion.criterion c) (Criterion.description c)
                  0 0 0 [] [] [].

(** The outcome [o] of a computation started in [m] has the state of [m]
    and a call log that extends that of [m]. *)
Definition kept_by {A} (m : Machine) (o : Outcome A) : Prop :=
  match o with
  | Returned _ m' | Thrown _ m' => state m' = state m ∧ calls m `prefix_of` calls m'
  end.

(** The state the six agents leave with [garbled_gateway] on the sample
    batch. *)
Definition garbled_final_state : WorkflowState :=
  final_state garbled_gateway sample_papers sample_criteria.

(** * Properties *)

(** ** The monad *)

Lemma bind_returned {A B} (c : Js A) (k : A → Js B) m a m' :
  c m = Returned a m' → (c ≫= k) m = k a m'.
Proof. intros H. unfold mbind, Js_bind, bind. by rewrite H. Qed.

Lemma bind_thrown {A B} (c : Js A) (k : A → Js B) m e m' :
  c m = Thrown e m' → (c ≫= k) m = Thrown e m'.
Proof. intros H. unfold mbind, Js_bind, bind. by rewrite H. Qed.

(** ** Agent 1 *)

Arguments missing_fields_message : simpl never.
Arguments show_nat : simpl never.

Lemma validate_from_spec i papers m :
  validate_from i papers m =
    match list_find (λ paper, lacks_required paper) papers with
    | Some (j, _) => Thrown (missing_fields_message (i + j)) m
    | None => Returned tt m
    end.
Proof.
  revert i. induction papers as [|paper rest IH]; intros i; [done|].
  cbn [validate_from list_find]. fold (lacks_required paper).
  destruct (lacks_required paper) eqn:E.
  - cbn. rewrite decide_True by done. by rewrite Nat.add_0_r.
  - cbn. rewrite decide_False by (by intros []). rewrite IH.
    destruct (list_find _ rest) as [[j p]|]; cbn; [|done].
    by rewrite Nat.add_succ_r.
Qed.

Ltac js_unfold :=
  unfold agent_body, try_catch, mbind, mret, Js_bind, Js_ret, bind, ret, throw,
    get_state, modify_state, JSON_parse, model_invoke in *.

Lemma agent1_spec m :
  agent1_processInput m =
    let papers := inputPapers (state m) in
    let failed error :=
      Thrown error (mkMachine (push_error (agent_error 1 error) (state m)) (calls m)) in
    if bool_decide (length papers ≠ 50%nat)
    then failed "Expected exactly 50 research papers"
    else match list_find (λ paper, lacks_required paper) papers with
         | Some (i, _) => failed (missing_fields_message i)
         | None => Returned tt (mkMachine (set_currentStep "Input Processed" (state m))
                                  (calls m))
         end.
Proof.
  unfold agent1_processInput. js_unfold. cbn zeta.
  destruct (bool_decide _); [done|].
  pose proof (validate_from_spec 0 (inputPapers (state m)) m) as Hv.
  js_unfold. rewrite Hv.
  by destruct (list_find _ _) as [[i p]|].
Qed.

Lemma missing_field_lacks paper : missing_field paper → lacks_required paper = true.
Proof.
  unfold lacks_required. intros [H|H]; rewrite H; cbn; [done|].
  by destruct (falsy _).
Qed.

(** C10.  When the state holds a number of documents other than 50, or a
    document from which [title] or [abstract] is absent, agent 1 throws:
    it makes no gateway call and leaves the state untouched except for the
    entry [Agent 1 Error: <message>] it records, and nothing sequenced
    after it runs.  With a count other than 50 the message is
    [Expected exactly 50 research papers]; with 50 documents it is
    [Paper <i+1> missing required fields: title, or abstract], [i] being
    the first position whose document fails the check and [<i+1>] its
    decimal numeral. *)
Theorem validation_fails_before_any_stage (m : Machine) :
  length (inputPapers (state m)) ≠ 50%nat
  ∨ Exists missing_field (inputPapers (state m)) →
  ∃ error,
    agent1_processInput m =
      Thrown error
        (mkMachine (push_error ("Agent 1 Error: " +:+ error) (state m)) (calls m))
    ∧ (∀ rest : Js unit,
         (agent1_processInput;; rest) m =
           Thrown error
             (mkMachine (push_error ("Agent 1 Error: " +:+ error) (state m))
                (calls m)))
    ∧ (length (inputPapers (state m)) ≠ 50%nat →
       error = "Expected exactly 50 research papers")
    ∧ (length (inputPapers (state m)) = 50%nat →
       ∃ i paper,
         inputPapers (state m) !! i = Some paper ∧ lacks_required paper = true
         ∧ (∀ j earlier, (j < i)%nat → inputPapers (state m) !! j = Some earlier →
                         lacks_required earlier = false)
         ∧ error = "Paper " +:+ NilZero.string_of_uint (Nat.to_uint (i + 1))
                   +:+ " missing required fields: title, or abstract").
Proof.
  intros Hbad.
  assert (∃ error,
    agent1_processInput m =
      Thrown error
        (mkMachine (push_error ("Agent 1 Error: " +:+ error) (state m)) (calls m))
    ∧ (length (inputPapers (state m)) ≠ 50%nat →
       error = "Expected exactly 50 research papers")
    ∧ (length (inputPapers (state m)) = 50%nat →
       ∃ i paper,
         inputPapers (state m) !! i = Some paper ∧ lacks_required paper = true
         ∧ (∀ j earlier, (j < i)%nat → inputPapers (state m) !! j = Some earlier →
                         lacks_required earlier = false)
         ∧ error = "Paper " +:+ NilZero.string_of_uint (Nat.to_uint (i + 1))
                   +:+ " missing required fields: title, or abstract"))
    as (error & H1 & Hcount & Hfield).
  { rewrite agent1_spec. cbn zeta. case_bool_decide as Hlen.
    - eexists. split; [reflexivity|]. split; [done|]. intros; contradiction.
    - destruct Hbad as [?|Hex]; [contradiction|].
      destruct (list_find (λ paper, lacks_required paper) (inputPapers (state m)))
        as [[i paper]|] eqn:Hfind.
      + apply list_find_Some in Hfind as (Hi & Hp & Hmin).
        eexists. split; [reflexivity|]. split; [intros; contradiction|].
        intros _. exists i, paper. split_and!; [done|by apply Is_true_eq_true|..|done].
        intros j earlier Hj Hlook. specialize (Hmin j earlier Hlook Hj).
        by destruct (lacks_required earlier).
      + apply list_find_None in Hfind. apply Exists_exists in Hex as (p & Hin & Hp).
        rewrite Forall_forall in Hfind. specialize (Hfind p Hin).
        apply missing_field_lacks in Hp. rewrite Hp in Hfind. by destruct Hfind. }
  exists error. split_and!; [done| |done|done].
  intros rest. by apply bind_thrown.
Qed.

(** ** The per-document loops *)

Section loops.
Context {B : Type} (body : nat → Paper.t → Js B).
Context (ok : Paper.t → Prop) (call : nat → Call).
Context (rejected : nat → option string) (result : nat → Paper.t → B).
Hypothesis body_spec : ∀ i paper m,
    ok paper →
    body i paper m =
      match rejected i with
      | Some e => Thrown e (log_call (call i) m)
      | None => Returned (result i paper) (log_call (call i) m)
      end.

Lemma for_each_paper_returns i papers results m :
    Forall ok papers →
    (∀ j, (j < length papers)%nat → rejected (i + j)%nat = None) →
    for_each_paper body i papers results m =
      Returned (results ++ imap (λ j, result (i + j)%nat) papers)
        (mkMachine (state m) (calls m ++ map call (seq i (length papers)))).
Proof.
    revert i results m.
    induction papers as [|paper rest IH]; intros i results m Hok Hans.
    { cbn. rewrite !app_nil_r. by destruct m. }
    apply Forall_cons in Hok as [Hp Hrest].
    cbn [for_each_paper]. erewrite bind_returned; last first.
    { rewrite body_spec by done.
      rewrite <- (Nat.add_0_r i) at 1. rewrite Hans by (cbn; lia). reflexivity. }
    rewrite IH; [|done|].
    - cbn. rewrite Nat.add_0_r, <- !app_assoc. cbn. do 3 f_equal.
      apply imap_ext. intros j x _. cbn. f_equal. lia.
    - intros j Hj. replace (S i + j)%nat with (i + S j)%nat by lia.
      apply Hans. cbn. lia.
Qed.

Lemma for_each_paper_throws i papers results m :
    Forall ok papers →
    (∃ j, (j < length papers)%nat ∧ rejected (i + j)%nat ≠ None) →
    ∃ e j m', (j < length papers)%nat ∧ rejected (i + j)%nat = Some e
              ∧ state m' = state m
              ∧ for_each_paper body i papers results m = Thrown e m'.
Proof.
    revert i results m.
    induction papers as [|paper rest IH]; intros i results m Hok (j & Hj & Hrej).
    { cbn in Hj. lia. }
    apply Forall_cons in Hok as [Hp Hrest].
    cbn [for_each_paper].
    destruct (rejected i) as [e|] eqn:Hi.
    - exists e, 0%nat, (log_call (call i) m). rewrite Nat.add_0_r.
      split_and!; [cbn; lia|done|done|].
      apply bind_thrown. by rewrite body_spec, Hi.
    - destruct j as [|j]; [by rewrite Nat.add_0_r in Hrej|].
      destruct (IH (S i) (results ++ [result i paper]) (log_call (call i) m) Hrest)
        as (e & k & m' & Hk & Hek & Hst & Hrun).
      { exists j. split; [cbn in Hj; lia|].
        by replace (S i + j)%nat with (i + S j)%nat by lia. }
      exists e, (S k), m'. split_and!; [cbn; lia| |done|].
      + by replace (i + S k)%nat with (S i + k)%nat by lia.
      + erewrite bind_returned; [exact Hrun|]. by rewrite body_spec, Hi.
Qed.
End loops.

(** ** Agents 2 and 4: the loop bodies *)

Lemma extract_one_spec gw i paper m :
  is_Some (Paper.abstract paper) →
  extract_one gw i paper m =
    match rejection (extract_reply gw i) with
    | Some e => Thrown e (log_call (ExtractCall i) m)
    | None => Returned (extracted gw i paper) (log_call (ExtractCall i) m)
    end.
Proof.
  intros [abstract Ha]. unfold extract_one, extracted, fallback_metadata, stamp.
  js_unfold. rewrite Ha.
  by destruct (extract_reply gw i) as [e|[e|[fields|items| |v]]].
Qed.

Lemma evaluate_one_spec gw criteria i paper m :
  evaluate_one gw criteria i paper m =
    match rejection (evaluate_reply gw i) with
    | Some e => Thrown e (log_call (EvaluateCall i) m)
    | None => Returned (evaluated gw criteria i paper) (log_call (EvaluateCall i) m)
    end.
Proof.
  unfold evaluate_one, evaluated, parse_evaluation. js_unfold.
  destruct (evaluate_reply gw i) as [e|[e|evaluation]]; cbn; try done.
  destruct (EvaluationJSON.evaluations evaluation) as [evaluations|]; [|done].
  by destruct (bool_decide _).
Qed.

(** ** The agents, one by one *)

Lemma lacks_required_abstract paper :
  lacks_required paper = false → has_abstract paper.
Proof.
  unfold lacks_required, has_abstract.
  destruct (Paper.abstract paper); [by eauto|].
  cbn. by rewrite orb_true_r.
Qed.

Lemma valid_input_abstract papers :
  valid_input papers → Forall has_abstract papers.
Proof.
  intros [_ H]. eapply Forall_impl; [exact H|]. apply lacks_required_abstract.
Qed.

Lemma agent2_returns gw m :
  Forall has_abstract (inputPapers (state m)) →
  (∀ i, (i < length (inputPapers (state m)))%nat →
        rejection (extract_reply gw i) = None) →
  agent2_extractMetadata gw m =
    Returned tt
      (mkMachine
         (set_currentStep "Metadata Extracted"
            (set_extractedMetadata (imap (extracted gw) (inputPapers (state m)))
               (state m)))
         (calls m ++ map ExtractCall (seq 0 (length (inputPapers (state m)))))).
Proof.
  intros Hok Hans. unfold agent2_extractMetadata. js_unfold.
  rewrite (for_each_paper_returns (extract_one gw) has_abstract ExtractCall
             (λ i, rejection (extract_reply gw i)) (extracted gw)); try done.
  intros. by apply extract_one_spec.
Qed.

Lemma agent2_throws gw m :
  Forall has_abstract (inputPapers (state m)) →
  (∃ i, (i < length (inputPapers (state m)))%nat
        ∧ rejection (extract_reply gw i) ≠ None) →
  ∃ e i m', (i < length (inputPapers (state m)))%nat
            ∧ extract_reply gw i = Rejected e
            ∧ agent2_extractMetadata gw m = Thrown e m'
            ∧ state m' = push_error (agent_error 2 e) (state m).
Proof.
  intros Hok Hrej.
  destruct (for_each_paper_throws (extract_one gw) has_abstract ExtractCall
              (λ i, rejection (extract_reply gw i)) (extracted gw)
              (λ i paper m, extract_one_spec gw i paper m)
              0 (inputPapers (state m)) [] m Hok Hrej)
    as (e & i & m' & Hi & He & Hst & Hrun).
  exists e, i, (mkMachine (push_error (agent_error 2 e) (state m')) (calls m')).
  split_and!; [done| | |by rewrite Hst].
  - cbn in He. by destruct (extract_reply gw i) as [?|?]; simplify_eq/=.
  - unfold agent2_extractMetadata. js_unfold. by rewrite Hrun.
Qed.

Lemma agent3_returns gw cs m :
  six_criteria gw cs →
  agent3_generateCriteria gw m =
    Returned tt
      (mkMachine
         (set_currentStep "Criteria Generated" (set_generatedCriteria cs (state m)))
         (calls m ++ [CriteriaCall])).
Proof.
  intros [Hreply Hlen]. unfold agent3_generateCriteria. js_unfold.
  rewrite Hreply. js_unfold. cbn. by rewrite bool_decide_false by (by intros ?).
Qed.

Lemma agent3_throws gw m :
  (∀ cs, ¬ six_criteria gw cs) →
  ∃ e, agent3_generateCriteria gw m =
         Thrown e (mkMachine (push_error (agent_error 3 e) (state m))
                     (calls m ++ [CriteriaCall]))
       ∧ (∀ v, criteria_reply gw = Replied (Parses v) →
               e = "Failed to generate exactly 6 criteria").
Proof.
  intros Hnot. unfold agent3_generateCriteria. js_unfold.
  destruct (criteria_reply gw) as [e|[e|[|cs]]] eqn:Hreply; js_unfold; cbn.
  - exists e. split; [done|]. by intros.
  - exists e. split; [done|]. by intros.
  - eexists. split; [done|]. by intros.
  - case_bool_decide as Hlen.
    + eexists. split; [done|]. by intros.
    + destruct (Hnot cs). split; [done|]. lia.
Qed.

Lemma agent4_returns gw m :
  (∀ i, (i < length (inputPapers (state m)))%nat →
        rejection (evaluate_reply gw i) = None) →
  agent4_evaluatePapers gw m =
    Returned tt
      (mkMachine
         (set_currentStep "Papers Evaluated"
            (set_evaluationResults
               (imap (evaluated gw (generatedCriteria (state m)))
                  (inputPapers (state m)))
               (state m)))
         (calls m ++ map EvaluateCall (seq 0 (length (inputPapers (state m)))))).
Proof.
  intros Hans. unfold agent4_evaluatePapers. js_unfold.
  rewrite (for_each_paper_returns (evaluate_one gw (generatedCriteria (state m)))
             (λ _, True) EvaluateCall
             (λ i, rejection (evaluate_reply gw i))
             (evaluated gw (generatedCriteria (state m)))); try done.
  - intros. by apply evaluate_one_spec.
  - by apply Forall_true.
Qed.

Lemma agent4_throws gw m :
  (∃ i, (i < length (inputPapers (state m)))%nat
        ∧ rejection (evaluate_reply gw i) ≠ None) →
  ∃ e i m', (i < length (inputPapers (state m)))%nat
            ∧ evaluate_reply gw i = Rejected e
            ∧ agent4_evaluatePapers gw m = Thrown e m'
            ∧ state m' = push_error (agent_error 4 e) (state m).
Proof.
  intros Hrej.
  destruct (for_each_paper_throws (evaluate_one gw (generatedCriteria (state m)))
              (λ _, True) EvaluateCall
              (λ i, rejection (evaluate_reply gw i))
              (evaluated gw (generatedCriteria (state m)))
              (λ i paper m _, evaluate_one_spec gw _ i paper m)
              0 (inputPapers (state m)) [] m (Forall_true _ _ (λ _, I)) Hrej)
    as (e & i & m' & Hi & He & Hst & Hrun).
  exists e, i, (mkMachine (push_error (agent_error 4 e) (state m')) (calls m')).
  split_and!; [done| | |by rewrite Hst].
  - cbn in He. by destruct (evaluate_reply gw i) as [?|?]; simplify_eq/=.
  - unfold agent4_evaluatePapers. js_unfold. by rewrite Hrun.
Qed.

Lemma agent5_returns m :
  agent5_generateStats m =
    Returned tt
      (mkMachine
         (set_currentStep "Statistics Generated"
            (set_criteriaStats
               (generateStats (generatedCriteria (state m))
                  (evaluationResults (state m)))
               (state m)))
         (calls m)).
Proof. reflexivity. Qed.

Lemma agent6_returns m :
  agent6_selectTopPapers m =
    Returned tt
      (mkMachine
         (set_currentStep "Top 10 Selected"
            (set_finalSelectedPapers (selectTopPapers (state m)) (state m)))
         (calls m)).
Proof. reflexivity. Qed.

Lemma agent1_returns m :
  valid_input (inputPapers (state m)) →
  agent1_processInput m =
    Returned tt (mkMachine (set_currentStep "Input Processed" (state m)) (calls m)).
Proof.
  intros [Hlen Hall]. rewrite agent1_spec. cbn zeta.
  rewrite bool_decide_false by (by intros ?).
  destruct (list_find _ _) as [[i p]|] eqn:Hfind; [|done].
  apply list_find_Some in Hfind as (Hi & Hp & _).
  rewrite Forall_lookup in Hall. rewrite (Hall i p Hi) in Hp. by destruct Hp.
Qed.

(** ** The agents called one after the other *)

Lemma first_three_agents gw papers cs :
  valid_input papers →
  (∀ i, (i < length papers)%nat → rejection (extract_reply gw i) = None) →
  six_criteria gw cs →
  ∃ m1 m2,
    agent1_processInput (start papers) = Returned tt m1
    ∧ agent2_extractMetadata gw m1 = Returned tt m2
    ∧ agent3_generateCriteria gw m2 = Returned tt (after_criteria gw papers cs).
Proof.
  intros Hvalid Hans Hsix. eexists _, _.
  split; [by apply agent1_returns|].
  split; [apply agent2_returns; cbn; [by apply valid_input_abstract|done]|].
  by rewrite (agent3_returns gw cs).
Qed.

Lemma last_three_agents gw papers cs :
  all_answered gw (length papers) →
  ∃ m4 m5,
    agent4_evaluatePapers gw (after_criteria gw papers cs) = Returned tt m4
    ∧ agent5_generateStats m4 = Returned tt m5
    ∧ agent6_selectTopPapers m5 =
        Returned tt (mkMachine (final_state gw papers cs) (all_calls (length papers))).
Proof.
  intros Hans. eexists _, _.
  split; [apply agent4_returns; cbn; intros i Hi; by apply Hans|].
  split; [by apply agent5_returns|].
  rewrite agent6_returns. cbn. unfold final_state, all_calls. cbn.
  by rewrite <- app_assoc.
Qed.

(** ** Sorting *)

Section sorting.
Context {A : Type} (compare : A → A → Z).

Lemma sort_insert_perm x l : sort_insert compare x l ≡ₚ x :: l.
Proof.
    induction l as [|y l IH]; [done|]. cbn.
    case_bool_decide; [done|]. rewrite IH. apply Permutation_swap.
Qed.

Lemma Array_sort_perm l : Array_sort compare l ≡ₚ l.
Proof.
    induction l as [|x l IH]; [done|]. cbn.
    rewrite sort_insert_perm. by rewrite IH.
Qed.

Lemma Array_sort_length l : length (Array_sort compare l) = length l.
Proof. by rewrite Array_sort_perm. Qed.
End sorting.

Lemma sort_insert_descending x l :
  descending l → descending (sort_insert by_score_desc x l).
Proof.
  unfold descending. induction 1 as [|y l Hl IH Hy]; cbn.
  { repeat constructor. }
  unfold by_score_desc at 1. case_bool_decide as Hcmp.
  - constructor; [by constructor|]. constructor; [lia|].
    eapply Forall_impl; [exact Hy|]. cbn. intros z Hz. lia.
  - constructor; [done|]. rewrite sort_insert_perm. constructor; [lia|done].
Qed.

Lemma Array_sort_descending l : descending (Array_sort by_score_desc l).
Proof.
  induction l as [|x l IH]; cbn; [constructor|]. by apply sort_insert_descending.
Qed.

Lemma filter_sort_insert k x l :
  filter (λ p, score p = k) (sort_insert by_score_desc x l)
  = filter (λ p, score p = k) (x :: l).
Proof.
  induction l as [|y l IH]; [done|]. cbn [sort_insert].
  unfold by_score_desc at 1. case_bool_decide as Hcmp; [done|].
  rewrite filter_cons, IH, !filter_cons.
  repeat case_decide; try done; lia.
Qed.

Lemma Array_sort_stable k l :
  filter (λ p, score p = k) (Array_sort by_score_desc l)
  = filter (λ p, score p = k) l.
Proof.
  induction l as [|x l IH]; [done|]. cbn [Array_sort foldr].
  rewrite filter_sort_insert, !filter_cons. fold (Array_sort by_score_desc l).
  by rewrite IH.
Qed.

Lemma Array_sort_is_stable_sort l :
  stable_descending_sort l (Array_sort by_score_desc l).
Proof.
  split_and!.
  - apply Array_sort_perm.
  - apply Array_sort_descending.
  - intros k. apply Array_sort_stable.
Qed.

(** Two descending lists that agree on every score class are equal: a
    stable descending sort has one possible result. *)
Lemma descending_unique l1 l2 :
  descending l1 → descending l2 →
  (∀ k, filter (λ p, score p = k) l1 = filter (λ p, score p = k) l2) →
  l1 = l2.
Proof.
  intros H1. revert l2. induction H1 as [|a l1 Hl1 IH Ha]; intros l2 H2 Hfilter.
  { destruct l2 as [|b l2]; [done|].
    specialize (Hfilter (score b)). rewrite filter_cons_True in Hfilter by done.
    by rewrite filter_nil in Hfilter. }
  destruct H2 as [|b l2 Hl2 Hb].
  { specialize (Hfilter (score a)). rewrite filter_cons_True in Hfilter by done.
    by rewrite filter_nil in Hfilter. }
  assert (score a = score b) as Hab.
  { apply Z.le_antisymm.
    - assert (a ∈ filter (λ p, score p = score a) (b :: l2)) as Hin.
      { rewrite <- Hfilter, filter_cons_True by done. by left. }
      apply list_elem_of_filter in Hin as [_ Hin].
      apply elem_of_cons in Hin as [->|Hin]; [done|].
      rewrite Forall_forall in Hb. by apply Hb.
    - assert (b ∈ filter (λ p, score p = score b) (a :: l1)) as Hin.
      { rewrite Hfilter, filter_cons_True by done. by left. }
      apply list_elem_of_filter in Hin as [_ Hin].
      apply elem_of_cons in Hin as [->|Hin]; [done|].
      rewrite Forall_forall in Ha. by apply Ha. }
  pose proof (Hfilter (score a)) as Hhead.
  rewrite filter_cons_True in Hhead by done.
  rewrite filter_cons_True in Hhead by done.
  injection Hhead as <- _. f_equal. apply IH; [done|].
  intros k. specialize (Hfilter k). rewrite !filter_cons in Hfilter.
  case_decide; [|done]. by injection Hfilter.
Qed.

Lemma stable_descending_sort_unique input sorted :
  stable_descending_sort input sorted → sorted = Array_sort by_score_desc input.
Proof.
  intros (_ & Hdesc & Hstable). apply descending_unique; [done|..].
  - apply Array_sort_descending.
  - intros k. by rewrite Hstable, Array_sort_stable.
Qed.

(** ** Tallying and scoring *)

Lemma tally_spec evaluations :
  tally evaluations =
    (count_response "Yes" evaluations, count_response "Maybe" evaluations,
     count_response "No" evaluations).
Proof.
  unfold tally, count_response.
  enough (∀ y m n,
    foldl (λ '(yesCount, maybeCount, noCount) eval,
             if bool_decide (Evaluation.response eval = "Yes")
             then (yesCount + 1, maybeCount, noCount)
             else if bool_decide (Evaluation.response eval = "Maybe")
             then (yesCount, maybeCount + 1, noCount)
             else if bool_decide (Evaluation.response eval = "No")
             then (yesCount, maybeCount, noCount + 1)
             else (yesCount, maybeCount, noCount))
          (y, m, n) evaluations
    = (y + Z.of_nat (length (filter (λ eval, Evaluation.response eval = "Yes") evaluations)),
       m + Z.of_nat (length (filter (λ eval, Evaluation.response eval = "Maybe") evaluations)),
       n + Z.of_nat (length (filter (λ eval, Evaluation.response eval = "No") evaluations))))
    as H by (by rewrite H).
  induction evaluations as [|eval rest IH]; intros y m n; cbn [foldl].
  { cbn. repeat match goal with |- (_, _) = (_, _) => f_equal end; lia. }
  rewrite !filter_cons.
  repeat case_bool_decide; rewrite IH; repeat case_decide; try congruence;
    cbn [length];
    repeat match goal with |- (_, _) = (_, _) => f_equal end; lia.
Qed.

Lemma count_response_nonneg r evaluations : 0 ≤ count_response r evaluations.
Proof. unfold count_response. lia. Qed.

Lemma scorePaper_spec paperEval :
  let yes := count_response "Yes" (PaperEval.evaluations paperEval) in
  let maybe := count_response "Maybe" (PaperEval.evaluations paperEval) in
  let no := count_response "No" (PaperEval.evaluations paperEval) in
  scorePaper paperEval =
    Scored.mk (PaperEval.paper_id paperEval) (PaperEval.title paperEval)
      yes maybe no (eligibility yes maybe).1 (eligibility yes maybe).2
      (PaperEval.evaluations paperEval) (PaperEval.paper_id paperEval - 1).
Proof.
  cbn zeta. unfold scorePaper. rewrite tally_spec.
  by destruct (eligibility _ _).
Qed.

Lemma count_response_all r evaluations :
  Forall (λ eval, Evaluation.response eval = r) evaluations →
  count_response r evaluations = Z.of_nat (length evaluations).
Proof.
  intros H. unfold count_response. f_equal. f_equal.
  induction H as [|eval rest Hr _ IH]; [done|].
  rewrite filter_cons_True by done. by rewrite IH.
Qed.

Lemma count_response_none r r' evaluations :
  r ≠ r' →
  Forall (λ eval, Evaluation.response eval = r) evaluations →
  count_response r' evaluations = 0.
Proof.
  intros Hne H. unfold count_response.
  induction H as [|eval rest Hr _ IH]; [done|].
  rewrite filter_cons_False by congruence. done.
Qed.

Lemma scorePaper_all_yes paperEval :
  all_yes paperEval →
  scorePaper paperEval =
    Scored.mk (PaperEval.paper_id paperEval) (PaperEval.title paperEval)
      6 0 0 1060 true (PaperEval.evaluations paperEval)
      (PaperEval.paper_id paperEval - 1).
Proof.
  intros [Hlen Hall]. rewrite scorePaper_spec. cbn zeta.
  rewrite (count_response_all "Yes") by done.
  rewrite (count_response_none "Yes" "Maybe") by done.
  rewrite (count_response_none "Yes" "No") by done.
  by rewrite Hlen.
Qed.

(** The four tiers and the best ineligible tally, evaluated. *)
Example eligibility_values :
  eligibility 6 0 = (1060, true) ∧ eligibility 5 1 = (955, true)
  ∧ eligibility 4 2 = (850, true) ∧ eligibility 3 2 = (740, true)
  ∧ eligibility 5 0 = (750, true) ∧ eligibility 2 4 = (40, false)
  ∧ eligibility 4 0 = (40, false) ∧ eligibility 0 0 = (0, false).
Proof. by split_and!. Qed.

Example tally_ignores_other_responses :
  tally (rate ["Yes"; "yes"; "Maybe"; "N/A"; "No"; ""]) = (1, 1, 1).
Proof. reflexivity. Qed.

(** ** Selection *)

Lemma filter_eligible_split (l : list Scored.t) :
  (length (filter (λ p, Scored.is_eligible p = true) l)
   + length (filter (λ p, Scored.is_eligible p = false) l))%nat = length l.
Proof.
  induction l as [|p l IH]; [done|]. rewrite !filter_cons.
  destruct (Scored.is_eligible p); repeat case_decide; try done; cbn; lia.
Qed.

Lemma selectPapers_reference l : selectPapers l = reference_selection l.
Proof.
  unfold selectPapers, reference_selection. cbn zeta.
  rewrite (list_filter_iff (λ p, Is_true (Scored.is_eligible p))
             (λ p, Scored.is_eligible p = true)); last first.
  { intros p. by destruct (Scored.is_eligible p). }
  rewrite (list_filter_iff (λ p, ¬ Is_true (Scored.is_eligible p))
             (λ p, Scored.is_eligible p = false)); last first.
  { intros p. destruct (Scored.is_eligible p); naive_solver. }
  case_bool_decide; case_decide; done.
Qed.

Lemma reference_selection_take l :
  reference_selection l =
    take 10 (filter (λ p, Scored.is_eligible p = true) l
             ++ filter (λ p, Scored.is_eligible p = false) l).
Proof.
  unfold reference_selection. cbn zeta. case_decide.
  - by rewrite take_app_le.
  - rewrite take_app_ge by lia. done.
Qed.

Lemma reference_selection_length l :
  length (reference_selection l) = (10 `min` length l)%nat.
Proof.
  rewrite reference_selection_take, length_take, length_app.
  by rewrite filter_eligible_split.
Qed.

Lemma eligibility_cases yes maybe :
  (yes = 6 → eligibility yes maybe = (1000 + bonus yes maybe, true))
  ∧ (yes = 5 ∧ maybe = 1 → eligibility yes maybe = (900 + bonus yes maybe, true))
  ∧ (yes = 4 ∧ maybe = 2 → eligibility yes maybe = (800 + bonus yes maybe, true))
  ∧ (3 ≤ yes ∧ 5 ≤ yes + maybe ∧ yes ≠ 6 ∧ ¬ (yes = 5 ∧ maybe = 1)
     ∧ ¬ (yes = 4 ∧ maybe = 2) →
     eligibility yes maybe = (700 + bonus yes maybe, true))
  ∧ (¬ (yes = 6 ∨ (yes = 5 ∧ maybe = 1) ∨ (yes = 4 ∧ maybe = 2)
        ∨ (3 ≤ yes ∧ 5 ≤ yes + maybe)) →
     eligibility yes maybe = (0 + bonus yes maybe, false)).
Proof.
  unfold eligibility, bonus.
  split_and!; intros H; repeat case_bool_decide; cbn;
    try (f_equal; lia); exfalso; lia.
Qed.

(** C1.  For a document whose evaluations contain [yes] entries rated Yes,
    [maybe] rated Maybe and [no] rated No with [yes + maybe + no = 6], the
    scored record carries these three counts, is eligible exactly in the
    four tiers (6 Yes; 5 Yes and 1 Maybe; 4 Yes and 2 Maybe; at least 3 Yes
    with Yes + Maybe at least 5), and its score is the tier base (1000,
    900, 800, 700, or 0 when ineligible) plus the bonus
    [10 * yes + 5 * maybe], which is added in every case. *)
Theorem eligibility_score_formula (paperEval : PaperEval.t) (yes maybe no : Z) :
  yes = count_response "Yes" (PaperEval.evaluations paperEval) →
  maybe = count_response "Maybe" (PaperEval.evaluations paperEval) →
  no = count_response "No" (PaperEval.evaluations paperEval) →
  yes + maybe + no = 6 →
  Scored.yes_count (scorePaper paperEval) = yes
  ∧ Scored.maybe_count (scorePaper paperEval) = maybe
  ∧ Scored.no_count (scorePaper paperEval) = no
  ∧ (Scored.is_eligible (scorePaper paperEval) = true ↔
       yes = 6 ∨ (yes = 5 ∧ maybe = 1) ∨ (yes = 4 ∧ maybe = 2)
       ∨ (3 ≤ yes ∧ 5 ≤ yes + maybe))
  ∧ (yes = 6 → score (scorePaper paperEval) = 1000 + bonus yes maybe)
  ∧ (yes = 5 ∧ maybe = 1 → score (scorePaper paperEval) = 900 + bonus yes maybe)
  ∧ (yes = 4 ∧ maybe = 2 → score (scorePaper paperEval) = 800 + bonus yes maybe)
  ∧ (3 ≤ yes ∧ 5 ≤ yes + maybe ∧ yes ≠ 6 ∧ ¬ (yes = 5 ∧ maybe = 1)
     ∧ ¬ (yes = 4 ∧ maybe = 2) →
     score (scorePaper paperEval) = 700 + bonus yes maybe)
  ∧ (Scored.is_eligible (scorePaper paperEval) = false →
     score (scorePaper paperEval) = 0 + bonus yes maybe).
Proof.
  intros -> -> -> Hsix. rewrite scorePaper_spec. cbn zeta.
  cbn [Scored.yes_count Scored.maybe_count Scored.no_count Scored.is_eligible
       Scored.eligibility_score].
  set (yes := count_response "Yes" _) in *.
  set (maybe := count_response "Maybe" _) in *.
  destruct (eligibility_cases yes maybe) as (H6 & H5 & H4 & H3 & H0).
  split_and!; try done.
  - split.
    + intros Helig.
      destruct (decide (yes = 6 ∨ (yes = 5 ∧ maybe = 1) ∨ (yes = 4 ∧ maybe = 2)
                        ∨ (3 ≤ yes ∧ 5 ≤ yes + maybe))) as [|Hn]; [done|].
      by rewrite (H0 Hn) in Helig.
    + intros Hcase.
      destruct (decide (yes = 6)) as [?|?]; [by rewrite H6|].
      destruct (decide (yes = 5 ∧ maybe = 1)) as [?|?]; [by rewrite H5|].
      destruct (decide (yes = 4 ∧ maybe = 2)) as [?|?]; [by rewrite H4|].
      rewrite H3; [done|]. split_and!; try done; lia.
  - intros Hc. by rewrite (H6 Hc).
  - intros Hc. by rewrite (H5 Hc).
  - intros Hc. by rewrite (H4 Hc).
  - intros Hc. by rewrite (H3 Hc).
  - intros Hinel.
    destruct (decide (yes = 6 ∨ (yes = 5 ∧ maybe = 1) ∨ (yes = 4 ∧ maybe = 2)
                      ∨ (3 ≤ yes ∧ 5 ≤ yes + maybe))) as [Hc|Hn];
      [|by rewrite (H0 Hn)].
    exfalso.
    destruct (decide (yes = 6)) as [?|?]; [by rewrite H6 in Hinel|].
    destruct (decide (yes = 5 ∧ maybe = 1)) as [?|?]; [by rewrite H5 in Hinel|].
    destruct (decide (yes = 4 ∧ maybe = 2)) as [?|?]; [by rewrite H4 in Hinel|].
    rewrite H3 in Hinel; [done|]. split_and!; try done; lia.
Qed.

(** With non-negative counts summing to 6, an ineligible pair of counts
    scores below the 4 Yes / 2 Maybe tier. *)
Lemma ineligible_below_tiers yes maybe no :
  0 ≤ yes → 0 ≤ maybe → 0 ≤ no → yes + maybe + no = 6 →
  (eligibility yes maybe).2 = false →
  (eligibility yes maybe).1 < (eligibility 4 2).1.
Proof.
  intros Hy Hm Hn Hsum. unfold eligibility.
  repeat case_bool_decide; cbn; try done; intros _; lia.
Qed.

(** C2.  Among documents whose Yes, Maybe and No counts sum to 6, one with
    6 Yes scores strictly higher than one with 5 Yes and 1 Maybe, which
    scores strictly higher than one with 4 Yes and 2 Maybe, which scores
    strictly higher than every ineligible document. *)
Theorem tier_ordering (a b c d : PaperEval.t) :
  six_responses a → count_response "Yes" (PaperEval.evaluations a) = 6 →
  six_responses b → count_response "Yes" (PaperEval.evaluations b) = 5 →
  count_response "Maybe" (PaperEval.evaluations b) = 1 →
  six_responses c → count_response "Yes" (PaperEval.evaluations c) = 4 →
  count_response "Maybe" (PaperEval.evaluations c) = 2 →
  six_responses d → Scored.is_eligible (scorePaper d) = false →
  score (scorePaper d) < score (scorePaper c)
  ∧ score (scorePaper c) < score (scorePaper b)
  ∧ score (scorePaper b) < score (scorePaper a).
Proof.
  unfold six_responses. rewrite !scorePaper_spec. cbn zeta.
  cbn [Scored.is_eligible Scored.eligibility_score].
  intros Ha Ha6 Hb Hb5 Hb1 Hc Hc4 Hc2 Hd Hinel.
  pose proof (count_response_nonneg "Maybe" (PaperEval.evaluations a)).
  pose proof (count_response_nonneg "No" (PaperEval.evaluations a)).
  rewrite Ha6, Hb5, Hb1, Hc4, Hc2.
  replace (count_response "Maybe" (PaperEval.evaluations a)) with 0 by lia.
  split; [|done].
  eapply ineligible_below_tiers; [..|exact Hd|exact Hinel];
    apply count_response_nonneg.
Qed.

Lemma selectTopPapers_scored st :
  map Selected.scored (selectTopPapers st)
  = selectPapers (Array_sort by_score_desc (map scorePaper (evaluationResults st))).
Proof.
  unfold selectTopPapers. cbn zeta. rewrite <- list_fmap_compose.
  apply list_fmap_id.
Qed.

(** A list whose documents all have the same score is its own stable
    descending sort. *)
Lemma Array_sort_equal_scores k (l : list Scored.t) :
  Forall (λ p, score p = k) l → Array_sort by_score_desc l = l.
Proof.
  intros Hall. symmetry. apply stable_descending_sort_unique.
  split_and!; [done| |done].
  unfold descending. induction Hall as [|p l Hp Hl IH]; constructor; [done|].
  eapply Forall_impl; [exact Hl|]. cbn. intros q Hq. lia.
Qed.

(** C3.  The selection made by agent 6 is the reference procedure applied
    to the stable descending sort of the scored documents (ties in input
    order): the first 10 eligible documents in sorted order when at least
    10 are eligible, otherwise all eligible ones followed by the
    highest-scoring ineligible ones in sorted order, 10 documents in all or
    the whole pool when it has fewer.  When all 50 documents are rated Yes
    on all six criteria, every score is 1060 and the selection is the first
    10 documents in input order. *)
Theorem selection_matches_reference (st : WorkflowState) (sorted : list Scored.t) :
  stable_descending_sort (map scorePaper (evaluationResults st)) sorted →
  selectTopPapers st = map (attach st) (reference_selection sorted)
  ∧ map Selected.scored (selectTopPapers st) = reference_selection sorted
  ∧ length (selectTopPapers st) = (10 `min` length (evaluationResults st))%nat
  ∧ (length (evaluationResults st) = 50%nat →
     Forall all_yes (evaluationResults st) →
     Forall (λ p, score p = 1000 + 60) (map scorePaper (evaluationResults st))
     ∧ map Selected.scored (selectTopPapers st)
       = map scorePaper (take 10 (evaluationResults st))).
Proof.
  intros Hsorted. apply stable_descending_sort_unique in Hsorted as ->.
  split_and!.
  - unfold selectTopPapers. cbn zeta. by rewrite selectPapers_reference.
  - by rewrite selectTopPapers_scored, selectPapers_reference.
  - rewrite <- (length_fmap Selected.scored), selectTopPapers_scored.
    rewrite selectPapers_reference, reference_selection_length.
    by rewrite Array_sort_length, length_fmap.
  - intros Hlen Hyes.
    assert (Forall (λ p, score p = 1060 ∧ Scored.is_eligible p = true)
              (map scorePaper (evaluationResults st))) as Hall.
    { apply Forall_fmap. eapply Forall_impl; [exact Hyes|].
      intros pe Hpe. cbn. by rewrite scorePaper_all_yes. }
    split; [eapply Forall_impl; [exact Hall|]; by intros p [? _]|].
    rewrite selectTopPapers_scored, selectPapers_reference.
    rewrite (Array_sort_equal_scores 1060);
      [|eapply Forall_impl; [exact Hall|]; by intros p [? _]].
    unfold reference_selection. cbn zeta.
    assert (filter (λ p, Scored.is_eligible p = true)
              (map scorePaper (evaluationResults st))
            = map scorePaper (evaluationResults st)) as ->.
    { induction Hall as [|p l [_ Hp] _ IH]; [done|].
      rewrite filter_cons_True by done. by rewrite IH. }
    rewrite decide_True by (rewrite length_fmap; lia).
    by rewrite fmap_take.
Qed.

(** ** Statistics *)

Lemma valid_response_cases r :
  r ∈ valid_responses ↔ r = "Yes" ∨ r = "Maybe" ∨ r = "No".
Proof. unfold valid_responses. rewrite !elem_of_cons, elem_of_nil. tauto. Qed.

Lemma count_evaluation_total paperEval stats eval k :
  stat_total <$> (count_evaluation paperEval stats eval !! k)
  = (λ t, t + hit k eval) <$> (stat_total <$> (stats !! k)).
Proof.
  unfold count_evaluation, hit.
  destruct (decide (Evaluation.criterion_id eval = k)) as [Heq|Hne]; last first.
  { rewrite (bool_decide_false (_ ∧ _)) by tauto.
    destruct (stats !! Evaluation.criterion_id eval) as [[c d y m n yp mp np]|];
      repeat case_bool_decide; rewrite ?lookup_insert_ne by done;
      destruct (stats !! k); cbn; f_equal; lia. }
  subst k.
  destruct (stats !! Evaluation.criterion_id eval) as [[c d y m n yp mp np]|] eqn:Hid;
    [|by rewrite Hid].
  destruct (decide (Evaluation.response eval ∈ valid_responses)) as [Hv|Hv].
  - rewrite (bool_decide_true (_ ∧ _)) by done.
    apply valid_response_cases in Hv.
    repeat case_bool_decide; rewrite ?lookup_insert_eq; unfold stat_total; cbn;
      try (f_equal; lia).
    tauto.
  - rewrite (bool_decide_false (_ ∧ _)) by tauto.
    rewrite valid_response_cases in Hv.
    rewrite !bool_decide_false by tauto.
    rewrite Hid. unfold stat_total. cbn. f_equal. lia.
Qed.

Lemma count_paper_total paperEval stats k :
  stat_total <$> (count_paper stats paperEval !! k)
  = (λ t, t + hits k (PaperEval.evaluations paperEval))
      <$> (stat_total <$> (stats !! k)).
Proof.
  unfold count_paper. generalize (PaperEval.evaluations paperEval) as evaluations.
  intros evaluations. revert stats.
  induction evaluations as [|eval rest IH]; intros stats; cbn [foldl hits foldr].
  { destruct (stats !! k); cbn; f_equal; lia. }
  rewrite IH, count_evaluation_total. unfold hits.
  destruct (stats !! k); cbn; f_equal; lia.
Qed.

Lemma hits_covers_once k paperEval :
  responses_valid paperEval → covers_once k paperEval →
  hits k (PaperEval.evaluations paperEval) = 1.
Proof.
  unfold responses_valid, covers_once.
  enough (∀ evaluations,
    Forall (λ eval, Evaluation.response eval ∈ valid_responses) evaluations →
    hits k evaluations
    = Z.of_nat (length (filter (λ eval, Evaluation.criterion_id eval = k) evaluations)))
    as H by (intros Hv Hc; rewrite H, Hc; done).
  induction 1 as [|eval rest Hvalid _ IH]; [done|].
  cbn [hits foldr]. fold (hits k rest). rewrite IH, filter_cons. unfold hit.
  case_decide; [rewrite bool_decide_true by done|rewrite bool_decide_false by tauto];
    cbn [length]; lia.
Qed.

Lemma count_papers_total k stats evaluationResults :
  Forall (λ paperEval, responses_valid paperEval ∧ covers_once k paperEval)
    evaluationResults →
  stat_total <$> (foldl count_paper stats evaluationResults !! k)
  = (λ t, t + Z.of_nat (length evaluationResults)) <$> (stat_total <$> (stats !! k)).
Proof.
  intros Hall. revert stats.
  induction Hall as [|paperEval rest [Hv Hc] _ IH]; intros stats; cbn [foldl].
  { destruct (stats !! k); cbn; f_equal; lia. }
  rewrite IH, count_paper_total, hits_covers_once by done.
  destruct (stats !! k); cbn [fmap option_fmap option_map length]; f_equal; lia.
Qed.

Lemma init_stats_total k criteria stats :
  k ∈ map Criterion.id criteria ∨ stat_total <$> (stats !! k) = Some 0 →
  stat_total <$> (foldl init_stat stats criteria !! k) = Some 0.
Proof.
  revert stats. induction criteria as [|c rest IH]; intros stats H; cbn [foldl].
  { destruct H as [H|H]; [|done]. by apply elem_of_nil in H. }
  apply IH. unfold init_stat.
  destruct (decide (Criterion.id c = k)) as [->|Hne].
  - right. by rewrite lookup_insert_eq.
  - rewrite lookup_insert_ne by done. destruct H as [H|H]; [|by right].
    left. cbn in H. apply elem_of_cons in H as [?|?]; [congruence|done].
Qed.

Lemma generateStats_total k criteria evaluationResults :
  k ∈ map Criterion.id criteria →
  Forall (λ paperEval, responses_valid paperEval ∧ covers_once k paperEval)
    evaluationResults →
  stat_total <$> (generateStats criteria evaluationResults !! k)
  = Some (Z.of_nat (length evaluationResults)).
Proof.
  intros Hk Hall. unfold generateStats.
  rewrite count_papers_total by done.
  rewrite init_stats_total by (by left). done.
Qed.

(** C7 (as amended).  After agent 5 has run on the evaluation results of a
    50-document run, the statistics of every generated criterion [k] for
    which each document has exactly one entry, all responses being Yes,
    Maybe or No, satisfy [yes_count + maybe_count + no_count = 50]. *)
Theorem statistics_sum_to_document_count (m : Machine) (k : Z) :
  k ∈ map Criterion.id (generatedCriteria (state m)) →
  length (evaluationResults (state m)) = 50%nat →
  Forall (λ paperEval, responses_valid paperEval ∧ covers_once k paperEval)
    (evaluationResults (state m)) →
  ∃ m' stat,
    agent5_generateStats m = Returned tt m'
    ∧ criteriaStats (state m') !! k = Some stat
    ∧ CriterionStat.yes_count stat + CriterionStat.maybe_count stat
      + CriterionStat.no_count stat = 50.
Proof.
  intros Hk Hlen Hall. rewrite agent5_returns.
  pose proof (generateStats_total k _ _ Hk Hall) as Htotal.
  destruct (generateStats _ _ !! k) as [stat|] eqn:Hstat; [|done].
  eexists _, stat. split; [reflexivity|]. split; [exact Hstat|].
  cbn in Htotal. injection Htotal as Htotal. unfold stat_total in Htotal. lia.
Qed.

(** Closing a decidable closed goal by evaluation. *)
Ltac by_evaluation :=
  match goal with |- ?P => apply (bool_decide_unpack P) end; vm_compute; exact I.

Lemma sample_papers_valid : valid_input sample_papers.
Proof. split; [reflexivity|by_evaluation]. Qed.

(** C7, counterexample.  Agent 4 and then agent 5 on the sample batch with
    six criteria, every document being answered with six entries that have
    valid responses and all name criterion 1: criterion 1 ends with a
    total of 300 and criterion 2 with a total of 0. *)
Lemma statistics_sum_counterexample :
  ∃ m4 m5 stat1 stat2,
    agent4_evaluatePapers single_criterion_gateway
      (after_criteria single_criterion_gateway sample_papers sample_criteria)
    = Returned tt m4
    ∧ agent5_generateStats m4 = Returned tt m5
    ∧ length (generatedCriteria (state m4)) = 6%nat
    ∧ length (evaluationResults (state m4)) = 50%nat
    ∧ Forall (λ paperEval, length (PaperEval.evaluations paperEval) = 6%nat
                           ∧ responses_valid paperEval)
        (evaluationResults (state m4))
    ∧ criteriaStats (state m5) !! 1 = Some stat1
    ∧ CriterionStat.yes_count stat1 + CriterionStat.maybe_count stat1
      + CriterionStat.no_count stat1 = 300
    ∧ criteriaStats (state m5) !! 2 = Some stat2
    ∧ CriterionStat.yes_count stat2 + CriterionStat.maybe_count stat2
      + CriterionStat.no_count stat2 = 0.
Proof.
  eexists _, _, _, _. split.
  { apply agent4_returns. by intros i _. }
  split; [by apply agent5_returns|].
  split_and!; try (vm_compute; reflexivity).
  unfold responses_valid. by_evaluation.
Qed.

(** ** Fallbacks *)

Lemma extracted_undecodable gw i paper abstract content :
  Paper.abstract paper = Some abstract →
  extract_reply gw i = Replied content → undecodable content →
  extracted gw i paper
  = ObjectRecord
      (fallback_record i (Paper.title paper) (String.substring 0 200 abstract)).
Proof.
  intros Ha Hr Hbad. unfold extracted. rewrite Hr, Ha.
  by destruct content as [e|[fields|items| |v]].
Qed.

Lemma evaluated_malformed gw criteria i paper content :
  evaluate_reply gw i = Replied content → malformed_evaluation content →
  evaluated gw criteria i paper = fallback_evaluation criteria i paper.
Proof.
  intros Hr Hbad. unfold evaluated. rewrite Hr.
  destruct content as [e|evaluation]; [done|]. cbn in Hbad.
  destruct (EvaluationJSON.evaluations evaluation); [|done].
  by rewrite bool_decide_true.
Qed.

Lemma sample_papers_ascii :
  Forall (λ paper, ∃ abstract, Paper.abstract paper = Some abstract
                               ∧ ascii_text abstract) sample_papers.
Proof.
  unfold sample_papers. apply Forall_fmap, Forall_forall. intros i Hi.
  apply elem_of_seq in Hi. cbn. eexists. split; [reflexivity|].
  unfold ascii_text. by_evaluation.
Qed.

Lemma sample_papers_abstract : Forall has_abstract sample_papers.
Proof. apply valid_input_abstract, sample_papers_valid. Qed.

(** C4, counterexample.  On the sample batch, the rejection of the
    extraction call for the fourth document is not replaced by a fallback
    record: agent 2 throws the gateway's error and stores no metadata.
    Likewise for the evaluation call and agent 4, run on the state that
    agents 1 to 3 leave. *)
Lemma rejected_call_aborts_stage :
  ∃ m2 m4,
    valid_input sample_papers
    ∧ extract_reply unreachable_extraction 3 = Rejected "fetch failed"
    ∧ agent2_extractMetadata unreachable_extraction (start sample_papers)
      = Thrown "fetch failed" m2
    ∧ extractedMetadata (state m2) = []
    ∧ errors (state m2) = ["Agent 2 Error: fetch failed"]
    ∧ evaluate_reply unreachable_evaluation 3 = Rejected "fetch failed"
    ∧ agent4_evaluatePapers unreachable_evaluation
        (after_criteria unreachable_evaluation sample_papers sample_criteria)
      = Thrown "fetch failed" m4
    ∧ evaluationResults (state m4) = []
    ∧ errors (state m4) = ["Agent 4 Error: fetch failed"].
Proof.
  exists (mkMachine
            (push_error "Agent 2 Error: fetch failed" (initialState sample_papers))
            (map ExtractCall (seq 0 4))).
  exists (mkMachine
            (push_error "Agent 4 Error: fetch failed"
               (state (after_criteria unreachable_evaluation sample_papers
                         sample_criteria)))
            (calls (after_criteria unreachable_evaluation sample_papers
                      sample_criteria)
             ++ map EvaluateCall (seq 0 4))).
  split; [apply sample_papers_valid|].
  split_and!; try reflexivity; vm_compute; reflexivity.
Qed.

(** C4 (as amended).  Agent 2, run on documents that all have an abstract:
    when all its calls are answered it returns, recording no error, and
    every document whose answer does not decode (or decodes to [null])
    gets the fallback metadata record, built from its title and, the
    abstract being ASCII text, the first 200 characters of the abstract;
    when a call is rejected it throws, recording its error.  Agent 4: when
    all its calls are answered it returns, recording no error, and every
    document whose answer does not decode or fails the structural check
    gets the fallback evaluation; when a call is rejected it throws,
    recording its error. *)
Theorem malformed_answers_are_recovered (gw : Gateway) (m : Machine) :
  Forall has_abstract (inputPapers (state m)) →
  ((∀ i, (i < length (inputPapers (state m)))%nat →
         rejection (extract_reply gw i) = None) →
   ∃ m',
     agent2_extractMetadata gw m = Returned tt m'
     ∧ errors (state m') = errors (state m)
     ∧ ∀ i paper abstract content,
         inputPapers (state m) !! i = Some paper →
         Paper.abstract paper = Some abstract → ascii_text abstract →
         extract_reply gw i = Replied content → undecodable content →
         extractedMetadata (state m') !! i
         = Some (ObjectRecord
                   (fallback_record i (Paper.title paper)
                      (String.substring 0 200 abstract))))
  ∧ ((∀ i, (i < length (inputPapers (state m)))%nat →
           rejection (evaluate_reply gw i) = None) →
     ∃ m',
       agent4_evaluatePapers gw m = Returned tt m'
       ∧ errors (state m') = errors (state m)
       ∧ ∀ i paper content,
           inputPapers (state m) !! i = Some paper →
           evaluate_reply gw i = Replied content → malformed_evaluation content →
           evaluationResults (state m') !! i
           = Some (fallback_evaluation (generatedCriteria (state m)) i paper))
  ∧ ((∃ i, (i < length (inputPapers (state m)))%nat
           ∧ rejection (extract_reply gw i) ≠ None) →
     ∃ e i m',
       (i < length (inputPapers (state m)))%nat
       ∧ extract_reply gw i = Rejected e
       ∧ agent2_extractMetadata gw m = Thrown e m'
       ∧ state m' = push_error ("Agent 2 Error: " +:+ e) (state m))
  ∧ ((∃ i, (i < length (inputPapers (state m)))%nat
           ∧ rejection (evaluate_reply gw i) ≠ None) →
     ∃ e i m',
       (i < length (inputPapers (state m)))%nat
       ∧ evaluate_reply gw i = Rejected e
       ∧ agent4_evaluatePapers gw m = Thrown e m'
       ∧ state m' = push_error ("Agent 4 Error: " +:+ e) (state m)).
Proof.
  intros Habs. split_and!.
  - intros Hans. eexists. split; [by apply agent2_returns|].
    split; [done|]. cbn.
    intros i paper abstract content Hi Ha _ Hr Hbad.
    rewrite list_lookup_imap, Hi. cbn. f_equal.
    by eapply extracted_undecodable.
  - intros Hans. eexists. split; [by apply agent4_returns|].
    split; [done|]. cbn.
    intros i paper content Hi Hr Hbad.
    rewrite list_lookup_imap, Hi. cbn. f_equal.
    by eapply evaluated_malformed.
  - intros Hrej. by apply agent2_throws.
  - intros Hrej. by apply agent4_throws.
Qed.

Lemma garbled_gateway_answers : all_answered garbled_gateway (length sample_papers).
Proof. intros i _. by destruct i as [|[|i]]. Qed.

(** Agents 2 and 4 with [garbled_gateway] on the sample batch with six
    criteria: every call is answered, two answers about the first document
    do not decode and one about the second is malformed. *)
Lemma malformed_answers_are_recovered_witness :
  (∃ m',
     agent2_extractMetadata garbled_gateway
       (after_criteria garbled_gateway sample_papers sample_criteria)
     = Returned tt m'
     ∧ errors (state m') = []
     ∧ ∀ i paper abstract content,
         sample_papers !! i = Some paper →
         Paper.abstract paper = Some abstract → ascii_text abstract →
         extract_reply garbled_gateway i = Replied content → undecodable content →
         extractedMetadata (state m') !! i
         = Some (ObjectRecord
                   (fallback_record i (Paper.title paper)
                      (String.substring 0 200 abstract))))
  ∧ (∃ m',
       agent4_evaluatePapers garbled_gateway
         (after_criteria garbled_gateway sample_papers sample_criteria)
       = Returned tt m'
       ∧ errors (state m') = []
       ∧ ∀ i paper content,
           sample_papers !! i = Some paper →
           evaluate_reply garbled_gateway i = Replied content →
           malformed_evaluation content →
           evaluationResults (state m') !! i
           = Some (fallback_evaluation sample_criteria i paper)).
Proof.
  destruct (malformed_answers_are_recovered garbled_gateway
              (after_criteria garbled_gateway sample_papers sample_criteria))
    as (H2 & H4 & _).
  - apply sample_papers_abstract.
  - split.
    + apply H2. intros i _. by destruct i.
    + apply H4. intros i _. by destruct i as [|[|i]].
Defined.

(** C5, at a document whose answers do not decode.  With
    [garbled_gateway] on the sample batch, agent 2 returns and the first
    document's metadata is the fallback record: it has the document's
    title, the first 200 characters of the (ASCII) abstract as
    [abstract_summary], the sentinel on [research_domain], [methodology],
    [study_type], [main_findings], [journal] and [year], and empty
    [authors] and [keywords], but no [sample_size] and no [limitations]
    property.  Agent 4, run on the state that agents 1 to 3 leave,
    returns, and the first document's evaluation rates the six criteria
    Maybe with the fixed reasoning. *)
Theorem fallback_record_omits_two_fields :
  ∃ m2 m4 metadata abstract e,
    extract_reply garbled_gateway 0 = Replied (Unparsable e)
    ∧ evaluate_reply garbled_gateway 0 = Replied (Unparsable e)
    ∧ agent2_extractMetadata garbled_gateway (start sample_papers) = Returned tt m2
    ∧ agent4_evaluatePapers garbled_gateway
        (after_criteria garbled_gateway sample_papers sample_criteria)
      = Returned tt m4
    ∧ Paper.abstract (sample_paper 0) = Some abstract
    ∧ ascii_text abstract
    ∧ extractedMetadata (state m2) !! 0%nat = Some (ObjectRecord metadata)
    ∧ metadata !! "title"
      = Some (JStr "Research Paper 1: Impact of AI on Healthcare Systems")
    ∧ metadata !! "abstract_summary" = Some (JStr (String.substring 0 200 abstract))
    ∧ String.length (String.substring 0 200 abstract) = 200%nat
    ∧ Forall (λ field, metadata !! field = Some (JStr "Not specified"))
        ["research_domain"; "methodology"; "study_type"; "main_findings";
         "journal"; "year"]
    ∧ metadata !! "authors" = Some (JArr [])
    ∧ metadata !! "keywords" = Some (JArr [])
    ∧ metadata !! "sample_size" = None
    ∧ metadata !! "limitations" = None
    ∧ evaluationResults (state m4) !! 0%nat
      = Some (PaperEval.mk 1 (Paper.title (sample_paper 0))
                (map (λ k, Evaluation.mk k "Maybe" "Evaluation failed, marked as Maybe")
                   [1; 2; 3; 4; 5; 6])).
Proof.
  eexists _, _, _, _, _.
  split; [reflexivity|]. split; [reflexivity|].
  split.
  { apply agent2_returns; [apply sample_papers_abstract|].
    intros i _. by destruct i. }
  split.
  { apply agent4_returns. intros i _. by destruct i as [|[|i]]. }
  split; [reflexivity|].
  split; [unfold ascii_text; by_evaluation|].
  split; [reflexivity|].
  split_and!; try (vm_compute; reflexivity).
  repeat constructor.
Qed.

(** ** Identifiers *)

(** Agent 4 writes [paper_id] in its fallback only: a decoded answer keeps
    the [paper_id] the gateway wrote. *)
Lemma evaluated_paper_id gw criteria i paper :
  PaperEval.paper_id (evaluated gw criteria i paper)
  = match evaluate_reply gw i with
    | Replied (Parses evaluation) =>
        match EvaluationJSON.evaluations evaluation with
        | Some evaluations =>
            if bool_decide (length evaluations ≠ 6%nat) then Z.of_nat i + 1
            else EvaluationJSON.paper_id evaluation
        | None => Z.of_nat i + 1
        end
    | _ => Z.of_nat i + 1
    end.
Proof.
  unfold evaluated.
  destruct (evaluate_reply gw i) as [e|[e|evaluation]]; try done.
  destruct (EvaluationJSON.evaluations evaluation); [|done].
  by case_bool_decide.
Qed.

(** C6, at an evaluation answer that carries another document's id.  With
    [mislabelling_gateway] on the sample batch, agent 4, run on the state
    that agents 1 to 3 leave, stores for the first document (position 0) a
    record with [paper_id] 2; agent 6, run next, selects it first and joins
    it with the document and the metadata at position 1, not with its
    own. *)
Theorem gateway_paper_id_is_trusted :
  ∃ m4 m6 stored selected,
    agent4_evaluatePapers mislabelling_gateway
      (after_criteria mislabelling_gateway sample_papers sample_criteria)
    = Returned tt m4
    ∧ agent6_selectTopPapers m4 = Returned tt m6
    ∧ evaluationResults (state m4) !! 0%nat = Some stored
    ∧ PaperEval.paper_id stored = 2
    ∧ PaperEval.title stored = Paper.title (sample_paper 0)
    ∧ finalSelectedPapers (state m6) !! 0%nat = Some selected
    ∧ Selected.scored selected = scorePaper stored
    ∧ Scored.original_index (Selected.scored selected) = 1
    ∧ Selected.original_paper selected = Some (sample_paper 1)
    ∧ Selected.original_paper selected ≠ Some (sample_paper 0)
    ∧ Selected.metadata selected = extractedMetadata (state m6) !! 1%nat
    ∧ Selected.metadata selected ≠ extractedMetadata (state m6) !! 0%nat.
Proof.
  eexists _, _, _, _. split.
  { apply agent4_returns. intros i _. by destruct i. }
  split; [by apply agent6_returns|].
  split; [reflexivity|].
  split_and!; try (vm_compute; reflexivity).
  - vm_compute. discriminate.
  - intros H.
    apply (f_equal (λ o, o ≫= (λ record,
             match record with
             | ObjectRecord fields => fields !! "title"
             | _ => None
             end))) in H.
    vm_compute in H. discriminate.
Qed.

(** ** Criteria generation *)

(** C8.  When the criteria answer is anything but a decoded array of
    exactly six criteria (five, for example), agent 3 throws: it records
    the entry [Agent 3 Error: <message>] and changes nothing else in the
    state, so that no criteria are stored and nothing is selected, and
    nothing sequenced after it runs.  For a decoded answer of the wrong
    shape the message is [Failed to generate exactly 6 criteria]. *)
Theorem criteria_shape_failure_is_fatal (gw : Gateway) (m : Machine) :
  (∀ cs, ¬ six_criteria gw cs) →
  ∃ e m',
    agent3_generateCriteria gw m = Thrown e m'
    ∧ state m' = push_error ("Agent 3 Error: " +:+ e) (state m)
    ∧ calls m' = calls m ++ [CriteriaCall]
    ∧ generatedCriteria (state m') = generatedCriteria (state m)
    ∧ finalSelectedPapers (state m') = finalSelectedPapers (state m)
    ∧ (∀ v, criteria_reply gw = Replied (Parses v) →
            e = "Failed to generate exactly 6 criteria")
    ∧ (∀ rest : Js unit, (agent3_generateCriteria gw;; rest) m = Thrown e m').
Proof.
  intros Hnot.
  destruct (agent3_throws gw m Hnot) as (e & H3 & Hmessage).
  eexists e, _. split; [exact H3|].
  split_and!; try done.
  intros rest. by apply bind_thrown.
Qed.

Lemma five_criteria_are_not_six cs : ¬ six_criteria five_criteria_gateway cs.
Proof. intros [Hreply Hlen]. injection Hreply as <-. vm_compute in Hlen. lia. Qed.

(** Agent 3 with [five_criteria_gateway] on the initial state of the sample
    batch. *)
Lemma criteria_shape_failure_is_fatal_witness :
  ∃ e m',
    agent3_generateCriteria five_criteria_gateway (start sample_papers)
    = Thrown e m'
    ∧ state m' = push_error ("Agent 3 Error: " +:+ e) (state (start sample_papers))
    ∧ calls m' = calls (start sample_papers) ++ [CriteriaCall]
    ∧ generatedCriteria (state m') = generatedCriteria (state (start sample_papers))
    ∧ finalSelectedPapers (state m')
      = finalSelectedPapers (state (start sample_papers))
    ∧ (∀ v, criteria_reply five_criteria_gateway = Replied (Parses v) →
            e = "Failed to generate exactly 6 criteria")
    ∧ (∀ rest : Js unit,
         (agent3_generateCriteria five_criteria_gateway;; rest) (start sample_papers)
         = Thrown e m').
Proof.
  apply (criteria_shape_failure_is_fatal five_criteria_gateway (start sample_papers)).
  apply five_criteria_are_not_six.
Defined.

(** ** Sanitizing responses *)

Lemma sanitize_valid eval : Evaluation.response (sanitize eval) ∈ valid_responses.
Proof.
  unfold sanitize. cbn. case_bool_decide; [done|].
  apply valid_response_cases. tauto.
Qed.

Lemma evaluated_valid gw criteria i paper :
  responses_valid (evaluated gw criteria i paper).
Proof.
  assert (responses_valid (fallback_evaluation criteria i paper)) as Hfallback.
  { unfold responses_valid, fallback_evaluation. cbn. apply Forall_fmap, Forall_true.
    intros c. cbn. apply valid_response_cases. tauto. }
  unfold evaluated.
  destruct (evaluate_reply gw i) as [e|[e|evaluation]]; try done.
  destruct (EvaluationJSON.evaluations evaluation) as [evaluations|]; [|done].
  case_bool_decide; [done|].
  unfold responses_valid. cbn. apply Forall_fmap, Forall_true. intros eval.
  apply sanitize_valid.
Qed.

(** C9.  When agent 4 runs and its calls are answered, it returns, and for
    every document whose answer decodes with six entries the stored record
    keeps the entries in place, each one unchanged when its response is
    Yes, Maybe or No and with its response replaced by No otherwise (the
    other fields kept); every response in the evaluation results that the
    later agents read is Yes, Maybe or No. *)
Theorem responses_are_sanitized (gw : Gateway) (m : Machine) :
  (∀ i, (i < length (inputPapers (state m)))%nat →
        rejection (evaluate_reply gw i) = None) →
  ∃ m',
    agent4_evaluatePapers gw m = Returned tt m'
    ∧ (∀ i paper evaluation evaluations,
         inputPapers (state m) !! i = Some paper →
         evaluate_reply gw i = Replied (Parses evaluation) →
         EvaluationJSON.evaluations evaluation = Some evaluations →
         length evaluations = 6%nat →
         ∃ stored,
           evaluationResults (state m') !! i = Some stored
           ∧ length (PaperEval.evaluations stored) = 6%nat
           ∧ ∀ j eval,
               evaluations !! j = Some eval →
               ∃ eval',
                 PaperEval.evaluations stored !! j = Some eval'
                 ∧ Evaluation.criterion_id eval' = Evaluation.criterion_id eval
                 ∧ Evaluation.reasoning eval' = Evaluation.reasoning eval
                 ∧ (Evaluation.response eval ∈ ["Yes"; "Maybe"; "No"] →
                    eval' = eval)
                 ∧ (Evaluation.response eval ∉ ["Yes"; "Maybe"; "No"] →
                    Evaluation.response eval' = "No"))
    ∧ Forall (λ paperEval,
                Forall (λ eval, Evaluation.response eval ∈ ["Yes"; "Maybe"; "No"])
                  (PaperEval.evaluations paperEval))
        (evaluationResults (state m')).
Proof.
  intros Hans. eexists. split; [by apply agent4_returns|]. cbn. split.
  - intros i paper evaluation evaluations Hi Hr He Hlen.
    eexists. split.
    { rewrite list_lookup_imap, Hi. cbn. unfold evaluated. rewrite Hr, He.
      rewrite bool_decide_false by (by intros ?). reflexivity. }
    cbn. split; [by rewrite length_fmap|].
    intros j eval Hj. exists (sanitize eval).
    split; [by rewrite list_lookup_fmap, Hj|].
    unfold sanitize. cbn. split_and!; try done.
    + intros Hin. rewrite bool_decide_true by done. by destruct eval.
    + intros Hout. by rewrite bool_decide_false.
  - apply Forall_forall. intros paperEval Hin.
    apply list_elem_of_lookup in Hin as [i Hi].
    rewrite list_lookup_imap in Hi.
    destruct (inputPapers (state m) !! i) as [paper|]; [|done].
    injection Hi as <-. apply evaluated_valid.
Qed.

(** Agent 4 on the sample batch with [sloppy_gateway], whose answers contain
    responses such as [yes] and [N/A]. *)
Lemma responses_are_sanitized_witness :
  ∃ m',
    agent4_evaluatePapers sloppy_gateway (start sample_papers) = Returned tt m'
    ∧ Forall (λ paperEval,
                Forall (λ eval, Evaluation.response eval ∈ ["Yes"; "Maybe"; "No"])
                  (PaperEval.evaluations paperEval))
        (evaluationResults (state m')).
Proof.
  destruct (responses_are_sanitized sloppy_gateway (start sample_papers))
    as (m' & Hrun & _ & Hvalid).
  - intros i _. reflexivity.
  - exists m'. split; [exact Hrun|exact Hvalid].
Defined.

(** ** The theorems at sample inputs *)

(** The sample batch with the fourth abstract absent is refused by agent 1. *)
Lemma validation_fails_before_any_stage_witness :
  ∃ error,
    agent1_processInput (start incomplete_papers) =
      Thrown error
        (mkMachine
           (push_error ("Agent 1 Error: " +:+ error)
              (state (start incomplete_papers)))
           (calls (start incomplete_papers)))
    ∧ (∀ rest : Js unit,
         (agent1_processInput;; rest) (start incomplete_papers) =
           Thrown error
             (mkMachine
                (push_error ("Agent 1 Error: " +:+ error)
                   (state (start incomplete_papers)))
                (calls (start incomplete_papers))))
    ∧ (length (inputPapers (state (start incomplete_papers))) ≠ 50%nat →
       error = "Expected exactly 50 research papers")
    ∧ (length (inputPapers (state (start incomplete_papers))) = 50%nat →
       ∃ i paper,
         inputPapers (state (start incomplete_papers)) !! i = Some paper
         ∧ lacks_required paper = true
         ∧ (∀ j earlier, (j < i)%nat →
              inputPapers (state (start incomplete_papers)) !! j = Some earlier →
              lacks_required earlier = false)
         ∧ error = "Paper " +:+ NilZero.string_of_uint (Nat.to_uint (i + 1))
                   +:+ " missing required fields: title, or abstract").
Proof.
  apply (validation_fails_before_any_stage (start incomplete_papers)).
  right. unfold missing_field. by_evaluation.
Defined.

(** The message and the machine for that batch, written out. *)
Example agent1_refuses_incomplete_papers :
  agent1_processInput (start incomplete_papers) =
    Thrown "Paper 4 missing required fields: title, or abstract"
      (mkMachine
         (push_error "Agent 1 Error: Paper 4 missing required fields: title, or abstract"
            (initialState incomplete_papers))
         []).
Proof. vm_compute. reflexivity. Qed.

(** A batch of 49 documents. *)
Example agent1_refuses_49_papers :
  agent1_processInput (start (take 49 sample_papers)) =
    Thrown "Expected exactly 50 research papers"
      (mkMachine
         (push_error "Agent 1 Error: Expected exactly 50 research papers"
            (initialState (take 49 sample_papers)))
         []).
Proof. vm_compute. reflexivity. Qed.

(** A document rated Yes five times and Maybe once scores [900 + 55]. *)
Lemma eligibility_score_formula_witness :
  count_response "Yes" (rate ["Yes"; "Yes"; "Yes"; "Yes"; "Yes"; "Maybe"]) = 5
  ∧ count_response "Maybe" (rate ["Yes"; "Yes"; "Yes"; "Yes"; "Yes"; "Maybe"]) = 1
  ∧ count_response "No" (rate ["Yes"; "Yes"; "Yes"; "Yes"; "Yes"; "Maybe"]) = 0
  ∧ score (scorePaper (rated ["Yes"; "Yes"; "Yes"; "Yes"; "Yes"; "Maybe"]))
    = 900 + bonus 5 1.
Proof.
  split_and!; [reflexivity..|].
  apply (eligibility_score_formula
           (rated ["Yes"; "Yes"; "Yes"; "Yes"; "Yes"; "Maybe"]) 5 1 0);
    [reflexivity..|]. split; reflexivity.
Defined.

(** 2 Yes / 4 Maybe (ineligible) below 4 Yes / 2 Maybe below 5 Yes / 1 Maybe
    below 6 Yes. *)
Lemma tier_ordering_witness :
  score (scorePaper (rated ["Yes"; "Yes"; "Maybe"; "Maybe"; "Maybe"; "Maybe"]))
  < score (scorePaper (rated ["Yes"; "Yes"; "Yes"; "Yes"; "Maybe"; "Maybe"]))
  ∧ score (scorePaper (rated ["Yes"; "Yes"; "Yes"; "Yes"; "Maybe"; "Maybe"]))
    < score (scorePaper (rated ["Yes"; "Yes"; "Yes"; "Yes"; "Yes"; "Maybe"]))
  ∧ score (scorePaper (rated ["Yes"; "Yes"; "Yes"; "Yes"; "Yes"; "Maybe"]))
    < score (scorePaper (rated ["Yes"; "Yes"; "Yes"; "Yes"; "Yes"; "Yes"])).
Proof.
  apply (tier_ordering
           (rated ["Yes"; "Yes"; "Yes"; "Yes"; "Yes"; "Yes"])
           (rated ["Yes"; "Yes"; "Yes"; "Yes"; "Yes"; "Maybe"])
           (rated ["Yes"; "Yes"; "Yes"; "Yes"; "Maybe"; "Maybe"])
           (rated ["Yes"; "Yes"; "Maybe"; "Maybe"; "Maybe"; "Maybe"]));
    reflexivity.
Defined.

(** The six agents with [reliable_gateway]: all 50 documents score 1060 and the first
    10 in input order are selected. *)
Lemma selection_matches_reference_witness :
  length (selectTopPapers reliable_final_state) = 10%nat
  ∧ Forall (λ p, score p = 1000 + 60)
      (map scorePaper (evaluationResults reliable_final_state))
  ∧ map Selected.scored (selectTopPapers reliable_final_state)
    = map scorePaper (take 10 (evaluationResults reliable_final_state)).
Proof.
  destruct (selection_matches_reference reliable_final_state
              (Array_sort by_score_desc
                 (map scorePaper (evaluationResults reliable_final_state))))
    as (_ & _ & Hlen & Hyes).
  - apply Array_sort_is_stable_sort.
  - split; [exact Hlen|]. apply Hyes; [reflexivity|].
    unfold all_yes. by_evaluation.
Defined.

(** The six agents with [reliable_gateway]: criterion 3 has a total of 50. *)
Lemma statistics_sum_to_document_count_witness :
  ∃ m' stat,
    agent5_generateStats (mkMachine reliable_final_state []) = Returned tt m'
    ∧ criteriaStats (state m') !! 3 = Some stat
    ∧ CriterionStat.yes_count stat + CriterionStat.maybe_count stat
      + CriterionStat.no_count stat = 50.
Proof.
  apply (statistics_sum_to_document_count (mkMachine reliable_final_state []) 3).
  - by_evaluation.
  - reflexivity.
  - unfold responses_valid, covers_once. by_evaluation.
Defined.

(** * Further properties of the agents *)

(** ** Where a per-document loop stops *)

Section loop_stops.
Context {B : Type} (body : nat → Paper.t → Js B).
Context (ok : Paper.t → Prop) (call : nat → Call).
Context (rejected : nat → option string) (result : nat → Paper.t → B).
Hypothesis body_spec : ∀ i paper m,
  ok paper →
  body i paper m =
    match rejected i with
    | Some e => Thrown e (log_call (call i) m)
    | None => Returned (result i paper) (log_call (call i) m)
    end.

Lemma for_each_paper_stops i papers results m j e :
  Forall ok papers → (j < length papers)%nat →
  rejected (i + j)%nat = Some e →
  (∀ k, (k < j)%nat → rejected (i + k)%nat = None) →
  for_each_paper body i papers results m =
    Thrown e (mkMachine (state m) (calls m ++ map call (seq i (S j)))).
Proof.
  revert i j results m.
  induction papers as [|paper rest IH]; intros i j results m Hok Hj He Hbefore.
  { cbn in Hj. lia. }
  apply Forall_cons in Hok as [Hp Hrest]. cbn [for_each_paper].
  destruct j as [|j].
  - rewrite Nat.add_0_r in He. apply bind_thrown.
    by rewrite body_spec, He.
  - erewrite bind_returned; last first.
    { rewrite body_spec by done.
      rewrite <- (Nat.add_0_r i) at 1. rewrite Hbefore by lia. reflexivity. }
    rewrite (IH (S i) j); try done.
    + cbn. by rewrite <- app_assoc.
    + cbn in Hj. lia.
    + by replace (S i + j)%nat with (i + S j)%nat by lia.
    + intros k Hk. replace (S i + k)%nat with (i + S k)%nat by lia.
      apply Hbefore. lia.
Qed.
End loop_stops.

(** Among the first [n] calls, either none is rejected or there is a first
    rejected one. *)
Lemma first_rejection (rejected : nat → option string) (n : nat) :
  (∀ k, (k < n)%nat → rejected k = None)
  ∨ (∃ j e, (j < n)%nat ∧ rejected j = Some e
            ∧ ∀ k, (k < j)%nat → rejected k = None).
Proof.
  induction n as [|n [IH|IH]].
  - left. intros k Hk. lia.
  - destruct (rejected n) as [e|] eqn:Hn.
    + right. exists n, e. split_and!; [lia|done|done].
    + left. intros k Hk. destruct (decide (k = n)) as [->|]; [done|].
      apply IH. lia.
  - right. destruct IH as (j & e & Hj & He & Hbefore).
    exists j, e. split_and!; [lia|done|done].
Qed.

Lemma agent2_stops gw m j e :
  Forall has_abstract (inputPapers (state m)) →
  (j < length (inputPapers (state m)))%nat →
  rejection (extract_reply gw j) = Some e →
  (∀ k, (k < j)%nat → rejection (extract_reply gw k) = None) →
  agent2_extractMetadata gw m =
    Thrown e (mkMachine (push_error (agent_error 2 e) (state m))
                (calls m ++ map ExtractCall (seq 0 (S j)))).
Proof.
  intros Hok Hj He Hbefore. unfold agent2_extractMetadata. js_unfold.
  by rewrite (for_each_paper_stops (extract_one gw) has_abstract ExtractCall
                (λ i, rejection (extract_reply gw i)) (extracted gw)
                (λ i paper m, extract_one_spec gw i paper m)
                0 _ [] m j e Hok Hj He Hbefore).
Qed.

Lemma agent4_stops gw m j e :
  (j < length (inputPapers (state m)))%nat →
  rejection (evaluate_reply gw j) = Some e →
  (∀ k, (k < j)%nat → rejection (evaluate_reply gw k) = None) →
  agent4_evaluatePapers gw m =
    Thrown e (mkMachine (push_error (agent_error 4 e) (state m))
                (calls m ++ map EvaluateCall (seq 0 (S j)))).
Proof.
  intros Hj He Hbefore. unfold agent4_evaluatePapers. js_unfold.
  by rewrite (for_each_paper_stops
                (evaluate_one gw (generatedCriteria (state m)))
                (λ _, True) EvaluateCall
                (λ i, rejection (evaluate_reply gw i))
                (evaluated gw (generatedCriteria (state m)))
                (λ i paper m _, evaluate_one_spec gw _ i paper m)
                0 _ [] m j e (Forall_true _ _ (λ _, I)) Hj He Hbefore).
Qed.

(** ** What a failing agent leaves behind *)

Section loop_frame.
Context {B : Type} (body : nat → Paper.t → Js B).
Hypothesis body_frame : ∀ i paper m, kept_by m (body i paper m).

Lemma for_each_paper_frame i papers results m :
  kept_by m (for_each_paper body i papers results m).
Proof.
  revert i results m.
  induction papers as [|paper rest IH]; intros i results m; [done|].
  cbn [for_each_paper]. unfold mbind, Js_bind, bind.
  pose proof (body_frame i paper m) as Hbody.
  destruct (body i paper m) as [result m1|e m1]; [|done].
  destruct Hbody as [Hstate Hcalls].
  pose proof (IH (S i) (results ++ [result]) m1) as Hrest.
  destruct (for_each_paper body (S i) rest (results ++ [result]) m1)
    as [final m2|e m2]; destruct Hrest as [Hstate' Hcalls'];
    (split; [congruence|by etrans]).
Qed.
End loop_frame.

Lemma log_call_frame {A} c m (o : Machine → Outcome A) :
  (∀ m0, kept_by m0 (o m0)) → kept_by m (o (log_call c m)).
Proof.
  intros Ho. pose proof (Ho (log_call c m)) as H.
  destruct (o (log_call c m)) as [a m'|e m']; destruct H as [Hstate Hcalls];
    (split; [done|]); (etrans; [|exact Hcalls]); by apply prefix_app_r.
Qed.

Lemma extract_one_frame gw i paper m : kept_by m (extract_one gw i paper m).
Proof.
  unfold extract_one, fallback_metadata, stamp. js_unfold.
  assert (calls m `prefix_of` calls m ++ [ExtractCall i]) as Hlog
    by by apply prefix_app_r.
  destruct (extract_reply gw i) as [e|[e|[fields|items| |v]]];
    destruct (Paper.abstract paper); by cbn.
Qed.

Lemma evaluate_one_frame gw criteria i paper m :
  kept_by m (evaluate_one gw criteria i paper m).
Proof.
  rewrite evaluate_one_spec.
  destruct (rejection (evaluate_reply gw i)); cbn; split; try done;
    by apply prefix_app_r.
Qed.

(** X2.  An agent that throws leaves in the state exactly one more error
    entry, its own: [Agent n Error: <message>] with the message it throws;
    it changes nothing else in the state and keeps the log of the gateway
    calls made before it.  Agent 1 makes no call and agent 3 exactly one.
    Agents 5 and 6 do not throw. *)
Theorem failed_agent_records_one_error (gw : Gateway) (m : Machine) (e : string)
    (m' : Machine) :
  (agent1_processInput m = Thrown e m' →
   state m' = push_error ("Agent 1 Error: " +:+ e) (state m) ∧ calls m' = calls m)
  ∧ (agent2_extractMetadata gw m = Thrown e m' →
     state m' = push_error ("Agent 2 Error: " +:+ e) (state m)
     ∧ calls m `prefix_of` calls m')
  ∧ (agent3_generateCriteria gw m = Thrown e m' →
     state m' = push_error ("Agent 3 Error: " +:+ e) (state m)
     ∧ calls m' = calls m ++ [CriteriaCall])
  ∧ (agent4_evaluatePapers gw m = Thrown e m' →
     state m' = push_error ("Agent 4 Error: " +:+ e) (state m)
     ∧ calls m `prefix_of` calls m')
  ∧ agent5_generateStats m ≠ Thrown e m'
  ∧ agent6_selectTopPapers m ≠ Thrown e m'.
Proof.
  split_and!.
  - rewrite agent1_spec. cbn zeta. case_bool_decide.
    { by intros [= <- <-]. }
    destruct (list_find _ _) as [[i paper]|]; [|done]. by intros [= <- <-].
  - unfold agent2_extractMetadata. js_unfold.
    pose proof (for_each_paper_frame (extract_one gw) (extract_one_frame gw)
                  0 (inputPapers (state m)) [] m) as Hloop.
    destruct (for_each_paper _ _ _ _ _) as [results m0|e0 m0]; [done|].
    destruct Hloop as [Hstate Hcalls]. intros [= <- <-]. cbn. by rewrite Hstate.
  - unfold agent3_generateCriteria. js_unfold.
    destruct (criteria_reply gw) as [e0|[e0|[|cs]]]; js_unfold; cbn;
      try (by intros [= <- <-]).
    case_bool_decide; [|done]. by intros [= <- <-].
  - unfold agent4_evaluatePapers. js_unfold.
    pose proof (for_each_paper_frame
                  (evaluate_one gw (generatedCriteria (state m)))
                  (evaluate_one_frame gw (generatedCriteria (state m)))
                  0 (inputPapers (state m)) [] m) as Hloop.
    destruct (for_each_paper _ _ _ _ _) as [results m0|e0 m0]; [done|].
    destruct Hloop as [Hstate Hcalls]. intros [= <- <-]. cbn. by rewrite Hstate.
  - by rewrite agent5_returns.
  - by rewrite agent6_returns.
Qed.

(** X3.  When agent 2 runs on documents that all have an abstract and the
    extraction call for document [j] is the first one rejected, it stops
    there: it has called the gateway for documents [0 .. j] only, it throws
    the gateway's message and records it as its error, and the metadata
    extracted for the earlier documents is not stored. *)
Theorem rejected_extraction_stops_agent2 (gw : Gateway) (m : Machine)
    (j : nat) (e : string) :
  Forall has_abstract (inputPapers (state m)) →
  (j < length (inputPapers (state m)))%nat →
  extract_reply gw j = Rejected e → extraction_answered gw j →
  ∃ m',
    agent2_extractMetadata gw m = Thrown e m'
    ∧ calls m' = calls m ++ map ExtractCall (seq 0 (S j))
    ∧ state m' = push_error ("Agent 2 Error: " +:+ e) (state m)
    ∧ extractedMetadata (state m') = extractedMetadata (state m).
Proof.
  intros Habs Hj He Hbefore. eexists. split.
  { apply (agent2_stops gw m j e); try done. by rewrite He. }
  done.
Qed.

(** X4.  When the evaluation call for document [j] is the first one
    rejected, agent 4 stops there: it has called the gateway for documents
    [0 .. j] only, it throws the gateway's message and records it as its
    error, and the evaluations obtained for the earlier documents are not
    stored. *)
Theorem rejected_evaluation_stops_agent4 (gw : Gateway) (m : Machine)
    (j : nat) (e : string) :
  (j < length (inputPapers (state m)))%nat →
  evaluate_reply gw j = Rejected e → evaluation_answered gw j →
  ∃ m',
    agent4_evaluatePapers gw m = Thrown e m'
    ∧ calls m' = calls m ++ map EvaluateCall (seq 0 (S j))
    ∧ state m' = push_error ("Agent 4 Error: " +:+ e) (state m)
    ∧ evaluationResults (state m') = evaluationResults (state m).
Proof.
  intros Hj He Hbefore. eexists. split.
  { apply (agent4_stops gw m j e); try done. by rewrite He. }
  done.
Qed.

(** ** What agents 2 and 4 store *)

(** X5.  When agent 2 runs on documents that all have an abstract and its
    calls are answered, it stores one metadata record per document, in
    input order.  For an answer that decodes to an object, the record is
    that object with [paper_id = i + 1] and [original_index = i], whatever
    the gateway wrote under these names, and every other property kept;
    for an array, it is the array with these two properties set on it.
    For an answer that decodes to a number, a string or a boolean, the
    record is that value itself, which carries neither property.  For an
    answer that does not decode, or decodes to [null], the record is a
    fallback object with [paper_id = i + 1] and [original_index = i]. *)
Theorem extraction_stamps_positions (gw : Gateway) (m : Machine) :
  Forall has_abstract (inputPapers (state m)) →
  extraction_answered gw (length (inputPapers (state m))) →
  ∃ m',
    agent2_extractMetadata gw m = Returned tt m'
    ∧ length (extractedMetadata (state m')) = length (inputPapers (state m))
    ∧ ∀ i paper,
        inputPapers (state m) !! i = Some paper →
        ∃ record,
          extractedMetadata (state m') !! i = Some record
          ∧ (∀ fields,
               extract_reply gw i = Replied (Parses (MetadataObject fields)) →
               ∃ stored,
                 record = ObjectRecord stored
                 ∧ stored !! "paper_id" = Some (JNum (Z.of_nat i + 1))
                 ∧ stored !! "original_index" = Some (JNum (Z.of_nat i))
                 ∧ ∀ key, key ≠ "paper_id" → key ≠ "original_index" →
                          stored !! key = fields !! key)
          ∧ (∀ items,
               extract_reply gw i = Replied (Parses (MetadataArray items)) →
               record = ArrayRecord items
                          {[ "paper_id" := JNum (Z.of_nat i + 1);
                             "original_index" := JNum (Z.of_nat i) ]})
          ∧ (∀ v,
               extract_reply gw i = Replied (Parses (MetadataPrimitive v)) →
               record = PrimitiveRecord v)
          ∧ (∀ content,
               extract_reply gw i = Replied content → undecodable content →
               ∃ stored,
                 record = ObjectRecord stored
                 ∧ stored !! "paper_id" = Some (JNum (Z.of_nat i + 1))
                 ∧ stored !! "original_index" = Some (JNum (Z.of_nat i))
                 ∧ stored !! "title" = JStr <$> Paper.title paper).
Proof.
  intros Habs Hans. eexists. split; [by apply agent2_returns|]. cbn.
  split; [by rewrite length_imap|].
  intros i paper Hi. exists (extracted gw i paper).
  split; [by rewrite list_lookup_imap, Hi|].
  unfold extracted. split_and!.
  - intros fields ->. eexists. split; [done|].
    split_and!; [by simplify_map_eq..|].
    intros key Hk1 Hk2. by rewrite !lookup_insert_ne.
  - intros items ->. reflexivity.
  - by intros v ->.
  - intros content -> Hbad.
    destruct content as [e|[fields|items| |v]]; try done;
      (eexists; split; [done|]); unfold fallback_record;
      destruct (Paper.title paper); split_and!; by simplify_map_eq.
Qed.

Lemma responses_valid_sum paperEval :
  responses_valid paperEval →
  count_response "Yes" (PaperEval.evaluations paperEval)
  + count_response "Maybe" (PaperEval.evaluations paperEval)
  + count_response "No" (PaperEval.evaluations paperEval)
  = Z.of_nat (length (PaperEval.evaluations paperEval)).
Proof.
  unfold responses_valid, count_response.
  induction 1 as [|eval rest Hvalid _ IH]; [done|].
  apply valid_response_cases in Hvalid. rewrite !filter_cons.
  destruct Hvalid as [H|[H|H]]; rewrite H; repeat case_decide; try done;
    cbn [length]; lia.
Qed.

Lemma evaluated_length gw criteria i paper :
  length criteria = 6%nat →
  length (PaperEval.evaluations (evaluated gw criteria i paper)) = 6%nat.
Proof.
  intros Hsix.
  assert (length (PaperEval.evaluations (fallback_evaluation criteria i paper))
          = 6%nat) as Hfallback.
  { unfold fallback_evaluation. cbn. by rewrite length_fmap. }
  unfold evaluated.
  destruct (evaluate_reply gw i) as [e|[e|evaluation]]; try done.
  destruct (EvaluationJSON.evaluations evaluation) as [evaluations|]; [|done].
  case_bool_decide as Hlen; [done|]. cbn. rewrite length_fmap. lia.
Qed.

Lemma evaluated_six_responses gw criteria i paper :
  length criteria = 6%nat → six_responses (evaluated gw criteria i paper).
Proof.
  intros Hsix. unfold six_responses.
  rewrite responses_valid_sum by apply evaluated_valid.
  by rewrite evaluated_length.
Qed.

(** X6.  When agent 4 runs with six criteria in the state and its calls are
    answered, it stores one record per document, in input order, and every
    stored record, decoded or fallback, has exactly six entries whose
    responses are Yes, Maybe or No, so that its Yes, Maybe and No counts
    sum to 6. *)
Theorem evaluation_results_are_six_valid (gw : Gateway) (m : Machine) :
  length (generatedCriteria (state m)) = 6%nat →
  evaluation_answered gw (length (inputPapers (state m))) →
  ∃ m',
    agent4_evaluatePapers gw m = Returned tt m'
    ∧ length (evaluationResults (state m')) = length (inputPapers (state m))
    ∧ Forall (λ paperEval,
                length (PaperEval.evaluations paperEval) = 6%nat
                ∧ responses_valid paperEval
                ∧ six_responses paperEval)
        (evaluationResults (state m')).
Proof.
  intros Hsix Hans. eexists. split; [by apply agent4_returns|]. cbn.
  split; [by rewrite length_imap|].
  apply Forall_forall. intros paperEval Hin.
  apply elem_of_lookup_imap in Hin as (i & paper & -> & _).
  split_and!.
  - by apply evaluated_length.
  - apply evaluated_valid.
  - by apply evaluated_six_responses.
Qed.

(** ** Tiers *)

Lemma tier_base_spec yes maybe :
  tier_base yes maybe =
    if decide (yes = 6) then 1000
    else if decide (yes = 5 ∧ maybe = 1) then 900
    else if decide (yes = 4 ∧ maybe = 2) then 800
    else if decide (3 ≤ yes ∧ 5 ≤ yes + maybe) then 700
    else 0.
Proof.
  unfold tier_base, eligibility, bonus.
  repeat case_bool_decide; repeat case_decide; cbn; lia.
Qed.

Lemma tier_base_eligible yes maybe :
  (eligibility yes maybe).2 = true ↔ 700 ≤ tier_base yes maybe.
Proof.
  unfold tier_base, eligibility, bonus.
  repeat case_bool_decide; cbn; split; intros; try done; lia.
Qed.

Lemma eligibility_shape yes maybe :
  0 ≤ yes ≤ 6 → 0 ≤ maybe ≤ 6 →
  (eligibility yes maybe).1 = tier_base yes maybe + bonus yes maybe
  ∧ 0 ≤ bonus yes maybe ≤ 90
  ∧ (tier_base yes maybe = 0 ∨ tier_base yes maybe = 700
     ∨ tier_base yes maybe = 800 ∨ tier_base yes maybe = 900
     ∨ tier_base yes maybe = 1000).
Proof.
  intros Hy Hm. split; [unfold tier_base; lia|].
  split; [unfold bonus; lia|].
  rewrite tier_base_spec. repeat case_decide; tauto.
Qed.

Lemma score_eligible_iff yes maybe :
  0 ≤ yes ≤ 6 → 0 ≤ maybe ≤ 6 →
  (eligibility yes maybe).2 = true ↔ 700 ≤ (eligibility yes maybe).1.
Proof.
  intros Hy Hm. destruct (eligibility_shape yes maybe Hy Hm) as (Hs & Hb & Ht).
  rewrite tier_base_eligible. lia.
Qed.

(** X7.  For all Yes and Maybe counts between 0 and 6, whether or not they
    sum to 6, the bonus never overturns the tiers: a pair of counts in a
    tier with a higher base (0, 700, 800, 900, 1000) has a strictly higher
    final score, and a document is eligible exactly when its final score
    is at least 700. *)
Theorem tier_dominance (yes1 maybe1 yes2 maybe2 : Z) :
  0 ≤ yes1 ≤ 6 → 0 ≤ maybe1 ≤ 6 → 0 ≤ yes2 ≤ 6 → 0 ≤ maybe2 ≤ 6 →
  (tier_base yes1 maybe1 < tier_base yes2 maybe2 →
   (eligibility yes1 maybe1).1 < (eligibility yes2 maybe2).1)
  ∧ ((eligibility yes1 maybe1).2 = true ↔ 700 ≤ (eligibility yes1 maybe1).1).
Proof.
  intros Hy1 Hm1 Hy2 Hm2.
  destruct (eligibility_shape yes1 maybe1 Hy1 Hm1) as (Hs1 & Hb1 & Ht1).
  destruct (eligibility_shape yes2 maybe2 Hy2 Hm2) as (Hs2 & Hb2 & Ht2).
  split.
  - intros Hlt. lia.
  - by apply score_eligible_iff.
Qed.

(** Counts between 0 and 6 with different tiers. *)
Lemma tier_dominance_witness :
  (tier_base 5 6 < tier_base 4 2 → (eligibility 5 6).1 < (eligibility 4 2).1)
  ∧ ((eligibility 5 6).2 = true ↔ 700 ≤ (eligibility 5 6).1).
Proof. apply (tier_dominance 5 6 4 2); lia. Defined.

(** ** The selection *)

Lemma filter_eligible_perm (l : list Scored.t) :
  filter (λ p, eligible p) l ++ filter (λ p, ineligible p) l ≡ₚ l.
Proof.
  rewrite <- (filter_app_complement (λ p, eligible p) l) at 3.
  rewrite (list_filter_iff (λ p, ineligible p) (λ p, ¬ eligible p)); [done|].
  intros p. destruct (Scored.is_eligible p); split; congruence.
Qed.

Lemma reference_selection_submseteq l : reference_selection l ⊆+ l.
Proof.
  rewrite reference_selection_take. etrans; [apply submseteq_take|].
  by rewrite filter_eligible_perm.
Qed.

(** X8.  Whatever the list of scored documents, the selection made from it
    takes each document at most once and has [min 10 n] elements; its
    eligible documents come before its ineligible ones; when at least 10
    documents are eligible only eligible ones are selected, and when fewer
    than 10 are eligible every eligible one is selected. *)
Theorem selection_structure (l : list Scored.t) :
  selectPapers l ⊆+ l
  ∧ length (selectPapers l) = (10 `min` length l)%nat
  ∧ selectPapers l
    = filter (λ p, eligible p) (selectPapers l)
      ++ filter (λ p, ineligible p) (selectPapers l)
  ∧ ((10 ≤ length (filter (λ p, eligible p) l))%nat →
     Forall (λ p, eligible p) (selectPapers l))
  ∧ ((length (filter (λ p, eligible p) l) < 10)%nat →
     ∀ p, p ∈ l → eligible p → p ∈ selectPapers l).
Proof.
  rewrite selectPapers_reference.
  assert (∀ k : list Scored.t, Forall (λ p, eligible p) k →
            filter (λ p, eligible p) k = k ∧ filter (λ p, ineligible p) k = [])
    as Hall_eligible.
  { induction 1 as [|p k Hp _ [IH1 IH2]]; [done|].
    rewrite filter_cons_True by done. rewrite IH1.
    rewrite filter_cons_False by congruence. done. }
  assert (∀ k : list Scored.t, Forall (λ p, ineligible p) k →
            filter (λ p, eligible p) k = [] ∧ filter (λ p, ineligible p) k = k)
    as Hall_ineligible.
  { induction 1 as [|p k Hp _ [IH1 IH2]]; [done|].
    rewrite filter_cons_False by congruence. rewrite IH1.
    rewrite filter_cons_True by done. by rewrite IH2. }
  assert (Forall (λ p, eligible p) (filter (λ p, eligible p) l)) as Hel.
  { apply Forall_forall. intros p Hp. by apply list_elem_of_filter in Hp as [? _]. }
  assert (Forall (λ p, ineligible p) (filter (λ p, ineligible p) l)) as Hinel.
  { apply Forall_forall. intros p Hp. by apply list_elem_of_filter in Hp as [? _]. }
  split; [apply reference_selection_submseteq|].
  split; [apply reference_selection_length|].
  unfold reference_selection. cbn zeta. case_decide as Hten.
  - split_and!.
    + destruct (Hall_eligible (take 10 (filter (λ p, eligible p) l)))
        as [-> ->]; [by apply Forall_take|]. by rewrite app_nil_r.
    + intros _. by apply Forall_take.
    + intros Hlt. lia.
  - split_and!.
    + rewrite !filter_app.
      destruct (Hall_eligible _ Hel) as [-> ->].
      destruct (Hall_ineligible
                  (take (10 - length (filter (λ p, eligible p) l))
                     (filter (λ p, ineligible p) l))) as [-> ->];
        [by apply Forall_take|].
      by rewrite app_nil_r.
    + intros Hge. lia.
    + intros _ p Hp Helig. apply elem_of_app. left.
      by apply list_elem_of_filter.
Qed.

Lemma scored_eligible_iff paperEval :
  six_responses paperEval →
  eligible (scorePaper paperEval) ↔ 700 ≤ score (scorePaper paperEval).
Proof.
  unfold six_responses. intros Hsix. rewrite scorePaper_spec. cbn zeta.
  cbn [Scored.is_eligible Scored.eligibility_score].
  pose proof (count_response_nonneg "Yes" (PaperEval.evaluations paperEval)).
  pose proof (count_response_nonneg "Maybe" (PaperEval.evaluations paperEval)).
  pose proof (count_response_nonneg "No" (PaperEval.evaluations paperEval)).
  apply score_eligible_iff; lia.
Qed.

(** In a descending list where eligibility is read off the score, the
    eligible documents form an initial part. *)
Lemma descending_eligible_first l :
  descending l → Forall (λ p, eligible p ↔ 700 ≤ score p) l →
  filter (λ p, eligible p) l ++ filter (λ p, ineligible p) l = l.
Proof.
  unfold descending. induction 1 as [|a l Hl IH Ha]; intros Hiff; [done|].
  apply Forall_cons in Hiff as [Ha_iff Hl_iff].
  destruct (Scored.is_eligible a) eqn:Helig.
  - rewrite filter_cons_True by done. rewrite filter_cons_False by congruence.
    cbn. f_equal. by apply IH.
  - rewrite filter_cons_False by congruence. rewrite filter_cons_True by done.
    assert (Forall (λ p, ineligible p) l) as Hall.
    { rewrite Forall_forall in Ha, Hl_iff. apply Forall_forall. intros p Hp.
      destruct (Scored.is_eligible p) eqn:Hp_elig; [|done].
      specialize (Ha p Hp). apply Hl_iff in Hp_elig; [|done].
      assert (¬ 700 ≤ score a) as Hlow by (rewrite <- Ha_iff; congruence).
      cbn in Ha. lia. }
    assert (filter (λ p, eligible p) l = [] ∧ filter (λ p, ineligible p) l = l)
      as [-> ->]; [|done].
    clear -Hall. induction Hall as [|p k Hp _ [IH1 IH2]]; [done|].
    rewrite filter_cons_False by congruence. rewrite IH1.
    rewrite filter_cons_True by done. by rewrite IH2.
Qed.

(** X9.  When every document's Yes, Maybe and No counts sum to 6, as they
    do in a run, the selection is the first 10 documents of the list sorted
    by descending score: scores do not increase down the selection, and no
    document left out scores higher than a selected one. *)
Theorem selection_is_top_ten (st : WorkflowState) :
  Forall six_responses (evaluationResults st) →
  map Selected.scored (selectTopPapers st)
  = take 10 (Array_sort by_score_desc (map scorePaper (evaluationResults st)))
  ∧ descending (map Selected.scored (selectTopPapers st))
  ∧ ∃ rest,
      map Selected.scored (selectTopPapers st) ++ rest
      ≡ₚ map scorePaper (evaluationResults st)
      ∧ ∀ selected left_out,
          selected ∈ map Selected.scored (selectTopPapers st) →
          left_out ∈ rest → score left_out ≤ score selected.
Proof.
  intros Hsix.
  set (sorted := Array_sort by_score_desc (map scorePaper (evaluationResults st))).
  assert (descending sorted) as Hdesc by apply Array_sort_descending.
  assert (Forall (λ p, eligible p ↔ 700 ≤ score p) sorted) as Hiff.
  { unfold sorted. rewrite Array_sort_perm. apply Forall_fmap.
    eapply Forall_impl; [exact Hsix|]. intros pe Hpe. by apply scored_eligible_iff. }
  assert (map Selected.scored (selectTopPapers st) = take 10 sorted) as ->.
  { rewrite selectTopPapers_scored, selectPapers_reference.
    rewrite reference_selection_take. fold sorted.
    by rewrite descending_eligible_first. }
  split; [done|].
  assert (descending (take 10 sorted ++ drop 10 sorted)) as Hsplit
    by by rewrite take_drop.
  split; [by apply StronglySorted_app_1_l in Hsplit|].
  exists (drop 10 sorted). split.
  - rewrite take_drop. apply Array_sort_perm.
  - intros selected left_out Hs Hr.
    apply (StronglySorted_app_1_elem_of _ _ _ _ _ Hsplit Hs Hr).
Qed.

Lemma array_get_position {A} (arr : list A) (i : nat) :
  array_get arr (Z.of_nat i + 1 - 1) = arr !! i.
Proof.
  unfold array_get. rewrite bool_decide_true by lia.
  f_equal. lia.
Qed.

(** Every selected record is the scored record of a stored evaluation,
    joined by [attach]. *)
Lemma selected_from_results st selected :
  selected ∈ selectTopPapers st →
  ∃ paperEval,
    paperEval ∈ evaluationResults st
    ∧ selected = attach st (scorePaper paperEval).
Proof.
  unfold selectTopPapers. cbn zeta. intros Hin.
  apply list_elem_of_fmap in Hin as (p & -> & Hp).
  rewrite selectPapers_reference in Hp.
  pose proof (elem_of_submseteq _ _ _ Hp (reference_selection_submseteq _)) as Hp'.
  rewrite Array_sort_perm in Hp'.
  apply list_elem_of_fmap in Hp' as (paperEval & -> & Hpe). by exists paperEval.
Qed.

(** X10.  When every stored evaluation record carries the [paper_id] of
    its position ([i + 1] at position [i]), agent 6 joins every selected
    record with its own document and metadata: the record built from the
    evaluation at position [i] has [paper_id = i + 1] and carries the input
    document and the metadata record of position [i]. *)
Theorem selection_joins_own_records (m : Machine) :
  (∀ i paperEval,
     evaluationResults (state m) !! i = Some paperEval →
     PaperEval.paper_id paperEval = Z.of_nat i + 1) →
  ∃ m',
    agent6_selectTopPapers m = Returned tt m'
    ∧ Forall (λ selected,
                ∃ i paperEval,
                  evaluationResults (state m) !! i = Some paperEval
                  ∧ Selected.scored selected = scorePaper paperEval
                  ∧ Scored.paper_id (Selected.scored selected) = Z.of_nat i + 1
                  ∧ Selected.original_paper selected = inputPapers (state m) !! i
                  ∧ Selected.metadata selected
                    = extractedMetadata (state m) !! i)
        (finalSelectedPapers (state m')).
Proof.
  intros Hecho. eexists. split; [by apply agent6_returns|].
  cbn [state finalSelectedPapers set_currentStep set_finalSelectedPapers].
  apply Forall_forall. intros selected Hin.
  apply selected_from_results in Hin as (paperEval & Hpe & ->).
  apply list_elem_of_lookup in Hpe as [i Hi].
  pose proof (Hecho i paperEval Hi) as Hid.
  exists i, paperEval. unfold attach.
  cbn [Selected.scored Selected.original_paper Selected.metadata].
  rewrite scorePaper_spec. cbn zeta.
  cbn [Scored.original_index Scored.paper_id]. rewrite Hid, !array_get_position.
  by split_and!.
Qed.

Lemma reliable_results_echo i paperEval :
  evaluationResults reliable_final_state !! i = Some paperEval →
  PaperEval.paper_id paperEval = Z.of_nat i + 1.
Proof.
  unfold reliable_final_state, final_state.
  cbn [evaluationResults set_currentStep set_finalSelectedPapers].
  rewrite list_lookup_imap.
  destruct (sample_papers !! i) as [paper|]; [|done].
  intros [= <-]. by rewrite evaluated_paper_id.
Qed.

(** Agent 6 on the state the first five agents leave with
    [reliable_gateway], whose answers carry the ids asked for. *)
Lemma selection_joins_own_records_witness :
  ∃ m',
    agent6_selectTopPapers (mkMachine reliable_final_state []) = Returned tt m'
    ∧ Forall (λ selected,
                ∃ i paperEval,
                  evaluationResults reliable_final_state !! i = Some paperEval
                  ∧ Selected.scored selected = scorePaper paperEval
                  ∧ Scored.paper_id (Selected.scored selected) = Z.of_nat i + 1
                  ∧ Selected.original_paper selected
                    = inputPapers reliable_final_state !! i
                  ∧ Selected.metadata selected
                    = extractedMetadata reliable_final_state !! i)
        (finalSelectedPapers (state m')).
Proof.
  apply (selection_joins_own_records (mkMachine reliable_final_state [])).
  apply reliable_results_echo.
Defined.

(** ** The statistics in full *)

Lemma extended_by_refl stat : extended_by [] [] [] stat stat.
Proof. unfold extended_by. rewrite !app_nil_r. cbn. split_and!; try done; lia. Qed.

Lemma extended_by_trans y1 m1 n1 y2 m2 n2 s1 s2 s3 :
  extended_by y1 m1 n1 s1 s2 → extended_by y2 m2 n2 s2 s3 →
  extended_by (y1 ++ y2) (m1 ++ m2) (n1 ++ n2) s1 s3.
Proof.
  unfold extended_by. intros (?&?&?&?&?&?&?&?) (?&?&?&?&?&?&?&?).
  rewrite !length_app, !app_assoc.
  split_and!; try congruence; lia.
Qed.

Lemma entry_refs_single k r paperEval eval :
  entry_refs k r paperEval [eval]
  = if decide (Evaluation.criterion_id eval = k ∧ Evaluation.response eval = r)
    then [PaperRef.mk (PaperEval.paper_id paperEval) (PaperEval.title paperEval)
            (Evaluation.reasoning eval)]
    else [].
Proof. unfold entry_refs. rewrite filter_cons, filter_nil. by case_decide. Qed.

Lemma count_evaluation_extends paperEval stats eval k :
  option_Forall2
    (extended_by (entry_refs k "Yes" paperEval [eval])
       (entry_refs k "Maybe" paperEval [eval])
       (entry_refs k "No" paperEval [eval]))
    (stats !! k) (count_evaluation paperEval stats eval !! k).
Proof.
  rewrite !entry_refs_single. unfold count_evaluation.
  destruct (decide (Evaluation.criterion_id eval = k)) as [Heq|Hne]; last first.
  { rewrite !decide_False by tauto.
    destruct (stats !! Evaluation.criterion_id eval) as [[c d y m n yp mp np]|];
      repeat case_bool_decide; rewrite ?lookup_insert_ne by done;
      destruct (stats !! k); constructor; apply extended_by_refl. }
  subst k.
  destruct (stats !! Evaluation.criterion_id eval) as [[c d y m n yp mp np]|] eqn:Hid;
    [|rewrite Hid; constructor].
  destruct (decide (Evaluation.response eval = "Yes")) as [Hyes|Hyes].
  { rewrite bool_decide_true by done. rewrite lookup_insert_eq.
    rewrite decide_True by done. rewrite !decide_False by (rewrite Hyes; by intros [_ ?]).
    constructor. unfold extended_by. cbn. rewrite ?app_nil_r.
    split_and!; try done; lia. }
  rewrite bool_decide_false by done.
  destruct (decide (Evaluation.response eval = "Maybe")) as [Hmaybe|Hmaybe].
  { rewrite bool_decide_true by done. rewrite lookup_insert_eq.
    rewrite (decide_False (P := _ ∧ _ = "Yes")) by tauto.
    rewrite decide_True by done. rewrite decide_False by (rewrite Hmaybe; by intros [_ ?]).
    constructor. unfold extended_by. cbn. rewrite ?app_nil_r.
    split_and!; try done; lia. }
  rewrite bool_decide_false by done.
  destruct (decide (Evaluation.response eval = "No")) as [Hno|Hno].
  { rewrite bool_decide_true by done. rewrite lookup_insert_eq.
    rewrite (decide_False (P := _ ∧ _ = "Yes")) by tauto.
    rewrite (decide_False (P := _ ∧ _ = "Maybe")) by tauto.
    rewrite decide_True by done.
    constructor. unfold extended_by. cbn. rewrite ?app_nil_r.
    split_and!; try done; lia. }
  rewrite bool_decide_false by done. rewrite Hid.
  rewrite !decide_False by tauto. constructor. apply extended_by_refl.
Qed.

Lemma entry_refs_cons k r paperEval eval rest :
  entry_refs k r paperEval (eval :: rest)
  = entry_refs k r paperEval [eval] ++ entry_refs k r paperEval rest.
Proof.
  unfold entry_refs. rewrite <- fmap_app. f_equal.
  rewrite !filter_cons, filter_nil. by case_decide.
Qed.

Lemma option_extended_trans y1 m1 n1 y2 m2 n2 o1 o2 o3 :
  option_Forall2 (extended_by y1 m1 n1) o1 o2 →
  option_Forall2 (extended_by y2 m2 n2) o2 o3 →
  option_Forall2 (extended_by (y1 ++ y2) (m1 ++ m2) (n1 ++ n2)) o1 o3.
Proof.
  destruct 1; inversion 1; subst; constructor. by eapply extended_by_trans.
Qed.

Lemma count_paper_extends paperEval stats k :
  option_Forall2
    (extended_by (entry_refs k "Yes" paperEval (PaperEval.evaluations paperEval))
       (entry_refs k "Maybe" paperEval (PaperEval.evaluations paperEval))
       (entry_refs k "No" paperEval (PaperEval.evaluations paperEval)))
    (stats !! k) (count_paper stats paperEval !! k).
Proof.
  unfold count_paper. generalize (PaperEval.evaluations paperEval) as evaluations.
  intros evaluations. revert stats.
  induction evaluations as [|eval rest IH]; intros stats; cbn [foldl].
  { destruct (stats !! k); constructor. apply extended_by_refl. }
  rewrite !(entry_refs_cons _ _ _ eval rest).
  eapply option_extended_trans; [apply count_evaluation_extends|apply IH].
Qed.

Lemma count_papers_extends evaluationResults stats k :
  option_Forall2
    (extended_by (bucket k "Yes" evaluationResults)
       (bucket k "Maybe" evaluationResults) (bucket k "No" evaluationResults))
    (stats !! k) (foldl count_paper stats evaluationResults !! k).
Proof.
  revert stats.
  induction evaluationResults as [|paperEval rest IH]; intros stats; cbn [foldl].
  { destruct (stats !! k); constructor. apply extended_by_refl. }
  unfold bucket. cbn [map concat]. fold (bucket k "Yes" rest).
  fold (bucket k "Maybe" rest). fold (bucket k "No" rest).
  eapply option_extended_trans; [apply count_paper_extends|apply IH].
Qed.

Lemma init_stats_lookup criteria stats k :
  match foldl init_stat stats criteria !! k with
  | Some stat => zeroed_for criteria k stat
                 ∨ ((k ∉ map Criterion.id criteria) ∧ stats !! k = Some stat)
  | None => (k ∉ map Criterion.id criteria) ∧ stats !! k = None
  end.
Proof.
  revert stats. induction criteria as [|c rest IH]; intros stats; cbn [foldl].
  { destruct (stats !! k); [right|]; split; try done; apply not_elem_of_nil. }
  specialize (IH (init_stat stats c)).
  destruct (foldl init_stat (init_stat stats c) rest !! k) as [stat|].
  - destruct IH as [(c' & Hc' & Hid & Hstat)|[Hnotin Hlook]].
    + left. exists c'. split; [by right|done].
    + unfold init_stat in Hlook.
      destruct (decide (Criterion.id c = k)) as [Heq|Hne].
      * left. rewrite Heq, lookup_insert_eq in Hlook. injection Hlook as <-.
        exists c. split; [by left|done].
      * right. rewrite lookup_insert_ne in Hlook by done. split; [|done].
        cbn. rewrite not_elem_of_cons. by split.
  - destruct IH as [Hnotin Hlook]. unfold init_stat in Hlook.
    destruct (decide (Criterion.id c = k)) as [Heq|Hne].
    + by rewrite Heq, lookup_insert_eq in Hlook.
    + rewrite lookup_insert_ne in Hlook by done. split; [|done].
      cbn. rewrite not_elem_of_cons. by split.
Qed.

(** X12.  For every generated criterion id, the statistics computed by
    agent 5 hold an entry with the text of a criterion of that id, whose
    three bucket lists are the back-references (paper id, title, reasoning)
    of exactly the entries that name this criterion with the response Yes,
    Maybe or No respectively, in document order and entry order, and whose
    three counters are the lengths of these lists. *)
Theorem statistics_buckets (criteria : list Criterion.t)
    (evaluationResults : list PaperEval.t) (k : Z) :
  k ∈ map Criterion.id criteria →
  ∃ stat,
    generateStats criteria evaluationResults !! k = Some stat
    ∧ (∃ c, c ∈ criteria ∧ Criterion.id c = k
            ∧ CriterionStat.criterion stat = Criterion.criterion c
            ∧ CriterionStat.description stat = Criterion.description c)
    ∧ CriterionStat.yes_papers stat = bucket k "Yes" evaluationResults
    ∧ CriterionStat.maybe_papers stat = bucket k "Maybe" evaluationResults
    ∧ CriterionStat.no_papers stat = bucket k "No" evaluationResults
    ∧ CriterionStat.yes_count stat
      = Z.of_nat (length (CriterionStat.yes_papers stat))
    ∧ CriterionStat.maybe_count stat
      = Z.of_nat (length (CriterionStat.maybe_papers stat))
    ∧ CriterionStat.no_count stat
      = Z.of_nat (length (CriterionStat.no_papers stat)).
Proof.
  intros Hk. unfold generateStats.
  pose proof (count_papers_extends evaluationResults (foldl init_stat ∅ criteria) k)
    as Hext.
  pose proof (init_stats_lookup criteria ∅ k) as Hinit.
  destruct (foldl init_stat ∅ criteria !! k) as [stat0|]; [|by destruct Hinit].
  destruct Hinit as [(c & Hc & Hid & ->)|[Hnotin _]]; [|done].
  inversion Hext as [? stat (Htext & Hdesc & Hy & Hm & Hn & Hyc & Hmc & Hnc)|]; subst.
  exists stat. cbn in *. split; [done|].
  split; [by exists c|].
  rewrite Hy, Hm, Hn, Hyc, Hmc, Hnc. split_and!; try done; lia.
Qed.

(** Criterion 1 in the run of [single_criterion_gateway]. *)
Lemma statistics_buckets_witness :
  ∃ stat,
    generateStats sample_criteria
      (imap (evaluated single_criterion_gateway sample_criteria) sample_papers) !! 1
    = Some stat
    ∧ CriterionStat.yes_count stat
      = Z.of_nat (length (CriterionStat.yes_papers stat))
    ∧ CriterionStat.yes_papers stat
      = bucket 1 "Yes"
          (imap (evaluated single_criterion_gateway sample_criteria) sample_papers).
Proof.
  destruct (statistics_buckets sample_criteria
              (imap (evaluated single_criterion_gateway sample_criteria) sample_papers)
              1) as (stat & Hstat & _ & Hyes & _ & _ & Hcount & _).
  - by_evaluation.
  - exists stat. split; [exact Hstat|]. split; [exact Hcount|exact Hyes].
Defined.

(** X13.  The statistics have exactly one entry per distinct generated
    criterion id: evaluation entries that name any other id create no
    entry, and no entry is ever removed. *)
Theorem statistics_keys_are_criterion_ids (criteria : list Criterion.t)
    (evaluationResults : list PaperEval.t) :
  dom (generateStats criteria evaluationResults)
  = list_to_set (map Criterion.id criteria).
Proof.
  apply set_eq. intros k. rewrite elem_of_dom, elem_of_list_to_set.
  unfold generateStats.
  pose proof (count_papers_extends evaluationResults (foldl init_stat ∅ criteria) k)
    as Hext.
  pose proof (init_stats_lookup criteria ∅ k) as Hinit.
  destruct (foldl init_stat ∅ criteria !! k) as [stat0|].
  - inversion Hext; subst. split; [|by eauto].
    intros _. destruct Hinit as [(c & Hc & Hid & _)|[_ Hempty]]; [|done].
    rewrite <- Hid. by apply list_elem_of_fmap_2.
  - inversion Hext; subst. destruct Hinit as [Hnotin _].
    split; [by intros [? ?]|done].
Qed.

(** ** Agent 2 without agent 1 *)

Lemma for_each_paper_throws_at {B} (body : nat → Paper.t → Js B) i papers
    results m j paper :
  papers !! j = Some paper →
  (∀ m0, ∃ e m', body (i + j)%nat paper m0 = Thrown e m') →
  ∃ e m', for_each_paper body i papers results m = Thrown e m'.
Proof.
  revert i j results m.
  induction papers as [|p rest IH]; intros i j results m Hj Hthrows; [done|].
  cbn [for_each_paper]. destruct j as [|j].
  - injection Hj as ->. rewrite Nat.add_0_r in Hthrows.
    destruct (Hthrows m) as (e & m' & Hbody).
    exists e, m'. by apply bind_thrown.
  - destruct (body i p m) as [result m1|e m1] eqn:Hbody.
    + erewrite bind_returned; [|done]. apply (IH (S i) j); [done|].
      by replace (S i + j)%nat with (i + S j)%nat by lia.
    + exists e, m1. by apply bind_thrown.
Qed.

(** X14.  Agent 2 relies on the validation done by agent 1: run on a state
    in which some document has no abstract and the gateway's answer about
    that document does not decode, it cannot build the fallback record and
    throws, so the stage fails instead of falling back. *)
Theorem fallback_needs_abstract (gw : Gateway) (m : Machine) (j : nat)
    (paper : Paper.t) (e : string) :
  inputPapers (state m) !! j = Some paper →
  Paper.abstract paper = None →
  extract_reply gw j = Replied (Unparsable e) →
  ∃ e' m', agent2_extractMetadata gw m = Thrown e' m'.
Proof.
  intros Hj Habs Hreply.
  destruct (for_each_paper_throws_at (extract_one gw) 0 (inputPapers (state m))
              [] m j paper Hj) as (e' & m' & Hloop).
  { intros m0. cbn. unfold extract_one, fallback_metadata. js_unfold.
    rewrite Hreply, Habs. by eexists _, _. }
  unfold agent2_extractMetadata. js_unfold. rewrite Hloop. by eexists _, _.
Qed.

(** The sample batch with the fourth abstract absent, given to agent 2
    directly, with a gateway whose fourth answer does not decode. *)
Lemma fallback_needs_abstract_witness :
  ∃ e' m',
    agent2_extractMetadata
      (mkGateway (λ _, Replied (Unparsable "Unexpected end of JSON input"))
         (criteria_reply reliable_gateway) (evaluate_reply reliable_gateway))
      (start incomplete_papers)
    = Thrown e' m'.
Proof.
  apply (fallback_needs_abstract _ (start incomplete_papers) 3
           (Paper.mk (Some "Research Paper 4: Untitled draft") None)
           "Unexpected end of JSON input");
    reflexivity.
Defined.

(** ** The dummy batch *)

Lemma dummyPapers_valid draws : valid_input (dummyPapers draws).
Proof.
  unfold dummyPapers. split; [by rewrite length_fmap, length_seq|].
  apply Forall_fmap, Forall_true. intros i.
  unfold lacks_required, dummyPaper. cbn.
  rewrite !bool_decide_false by done. done.
Qed.

(** X15.  Whatever numbers are drawn, the batch built by the [/test-dummy]
    route has 50 documents with non-empty title and abstract, so agent 1
    accepts it: it returns, having set the step to [Input Processed] and
    changed nothing else. *)
Theorem dummy_batch_passes_validation (draws : nat → nat * nat) :
  valid_input (dummyPapers draws)
  ∧ agent1_processInput (start (dummyPapers draws))
    = Returned tt
        (mkMachine (set_currentStep "Input Processed" (initialState (dummyPapers draws)))
           []).
Proof.
  pose proof (dummyPapers_valid draws) as Hvalid. split; [done|].
  by rewrite agent1_returns.
Qed.

(** ** The further theorems at sample inputs *)

(** Agent 2 with [unreachable_extraction] on the sample batch: the fourth
    extraction call is the first rejected. *)
Lemma rejected_extraction_stops_agent2_witness :
  ∃ m',
    agent2_extractMetadata unreachable_extraction (start sample_papers)
    = Thrown "fetch failed" m'
    ∧ calls m' = calls (start sample_papers) ++ map ExtractCall (seq 0 4)
    ∧ state m' = push_error ("Agent 2 Error: " +:+ "fetch failed")
                   (state (start sample_papers))
    ∧ extractedMetadata (state m') = extractedMetadata (state (start sample_papers)).
Proof.
  apply (rejected_extraction_stops_agent2 unreachable_extraction
           (start sample_papers) 3 "fetch failed").
  - apply sample_papers_abstract.
  - cbn. lia.
  - reflexivity.
  - intros i Hi. destruct i as [|[|[|i]]]; [reflexivity..|lia].
Defined.

(** Agent 4 with [unreachable_evaluation] on the state agents 1 to 3 leave
    for the sample batch: the fourth evaluation call is the first
    rejected. *)
Lemma rejected_evaluation_stops_agent4_witness :
  ∃ m',
    agent4_evaluatePapers unreachable_evaluation
      (after_criteria unreachable_evaluation sample_papers sample_criteria)
    = Thrown "fetch failed" m'
    ∧ calls m'
      = calls (after_criteria unreachable_evaluation sample_papers sample_criteria)
        ++ map EvaluateCall (seq 0 4)
    ∧ state m'
      = push_error ("Agent 4 Error: " +:+ "fetch failed")
          (state (after_criteria unreachable_evaluation sample_papers
                    sample_criteria))
    ∧ evaluationResults (state m')
      = evaluationResults
          (state (after_criteria unreachable_evaluation sample_papers
                    sample_criteria)).
Proof.
  apply (rejected_evaluation_stops_agent4 unreachable_evaluation
           (after_criteria unreachable_evaluation sample_papers sample_criteria)
           3 "fetch failed").
  - cbn. lia.
  - reflexivity.
  - intros i Hi. destruct i as [|[|[|i]]]; [reflexivity..|lia].
Defined.

(** Agent 2 on the sample batch with [terse_gateway], whose first three
    answers decode to 42, to [null] and to an empty array. *)
Lemma extraction_stamps_positions_witness :
  ∃ m',
    agent2_extractMetadata terse_gateway (start sample_papers) = Returned tt m'
    ∧ extractedMetadata (state m') !! 0%nat = Some (PrimitiveRecord (PNum 42))
    ∧ (∃ stored,
         extractedMetadata (state m') !! 1%nat = Some (ObjectRecord stored)
         ∧ stored !! "paper_id" = Some (JNum 2)
         ∧ stored !! "research_domain" = Some (JStr "Not specified"))
    ∧ extractedMetadata (state m') !! 2%nat
      = Some (ArrayRecord [] {[ "paper_id" := JNum 3; "original_index" := JNum 2 ]})
    ∧ (∃ stored,
         extractedMetadata (state m') !! 3%nat = Some (ObjectRecord stored)
         ∧ stored !! "paper_id" = Some (JNum 4)
         ∧ stored !! "year" = Some (JNum 2024)).
Proof.
  destruct (extraction_stamps_positions terse_gateway (start sample_papers))
    as (m' & Hrun & _ & Hrecords).
  - apply sample_papers_abstract.
  - intros i _. by destruct i as [|[|[|i]]].
  - exists m'. split; [exact Hrun|].
    rewrite agent2_returns in Hrun;
      [|apply sample_papers_abstract|intros i _; by destruct i as [|[|[|i]]]].
    injection Hrun as <-.
    split_and!; [|eexists; split_and!|..|eexists; split_and!];
      vm_compute; reflexivity.
Defined.

(** Agent 4 with [sloppy_gateway] on a state that holds the six sample
    criteria. *)
Lemma evaluation_results_are_six_valid_witness :
  ∃ m',
    agent4_evaluatePapers sloppy_gateway (mkMachine reliable_final_state [])
    = Returned tt m'
    ∧ length (evaluationResults (state m'))
      = length (inputPapers (state (mkMachine reliable_final_state [])))
    ∧ Forall (λ paperEval,
                length (PaperEval.evaluations paperEval) = 6%nat
                ∧ responses_valid paperEval
                ∧ six_responses paperEval)
        (evaluationResults (state m')).
Proof.
  apply (evaluation_results_are_six_valid sloppy_gateway
           (mkMachine reliable_final_state [])).
  - reflexivity.
  - intros i _. reflexivity.
Defined.

(** The six agents with [garbled_gateway]: two documents rated Maybe
    throughout, 48 rated Yes throughout. *)
Lemma selection_is_top_ten_witness :
  map Selected.scored (selectTopPapers garbled_final_state)
  = take 10 (Array_sort by_score_desc
               (map scorePaper (evaluationResults garbled_final_state)))
  ∧ descending (map Selected.scored (selectTopPapers garbled_final_state))
  ∧ ∃ rest,
      map Selected.scored (selectTopPapers garbled_final_state) ++ rest
      ≡ₚ map scorePaper (evaluationResults garbled_final_state)
      ∧ ∀ selected left_out,
          selected ∈ map Selected.scored (selectTopPapers garbled_final_state) →
          left_out ∈ rest → score left_out ≤ score selected.
Proof.
  apply (selection_is_top_ten garbled_final_state).
  unfold six_responses, count_response. by_evaluation.
Defined.
